(** * Authorization gate of [static-site/cloudfunction_auth_example.js]

    A shallow embedding of the three functions that carry the decision
    logic of the cloud function: [getUserFromRequest] (the identity
    resolver), [isUserAuthorized] (the allow-list checker) and
    [checkAuthorization] (the gate), followed by the properties stated
    about them; then of the handler that calls the gate ([exports.main])
    and of the short handler the configuration guide gives in its place.

    The code is JavaScript.  The request event is data decoded from the
    caller's request, so it is kept untyped: a universe of JavaScript
    values with truthiness, property reads that raise a [TypeError] on
    [undefined]/[null], and method calls that raise on values without the
    method.  What the platform SDK ([cloud]) hands back has the types of
    the SDK's contract, with every field the code tests before use allowed
    to be missing.  Collaborators may throw; a small monad threads the log
    of observable effects (calls to the SDK and [console.error]) and the
    abrupt completions through the code. *)

From Stdlib Require Import String List Bool Arith ZArith Lia.
Import ListNotations.
Local Open Scope list_scope.
Local Open Scope string_scope.
#[local] Set Warnings "-register-all".

(** ** JavaScript values *)

(** The values of an event: [undefined], [null], booleans, numbers
    (integers suffice: the code tests a number for truthiness at most),
    strings, arrays and objects.  An object is the list of its own
    properties; a key is looked up from the left. *)
Inductive jsval : Type :=
| VUndef : jsval
| VNull : jsval
| VBool (b : bool) : jsval
| VNum (n : Z) : jsval
| VStr (s : string) : jsval
| VArr (elems : list jsval) : jsval
| VObj (fields : list (string * jsval)) : jsval.

(** ToBoolean: what [if (v)], [!v], [a && b] and [a || b] test. *)
Definition truthy (v : jsval) : bool :=
  match v with
  | VUndef | VNull => false
  | VBool b => b
  | VNum n => negb (n =? 0)%Z
  | VStr s => negb (s =? "")
  | VArr _ | VObj _ => true
  end.

(** [a || b] on values (both operands are pure where it is used). *)
Definition js_or (a b : jsval) : jsval := if truthy a then a else b.

(** What a [throw] carries: a [TypeError] raised by the language itself,
    or whatever value a collaborator threw (or rejected its promise with). *)
Inductive exn : Type :=
| TypeError (msg : string) : exn
| Thrown (v : jsval) : exn.

(** Completion of an expression: normal with a value, or abrupt. *)
Inductive outcome (A : Type) : Type :=
| Returns (a : A) : outcome A
| Throws (e : exn) : outcome A.
Arguments Returns {A} a.
Arguments Throws {A} e.

Fixpoint lookup_field (k : string) (fields : list (string * jsval)) : jsval :=
  match fields with
  | [] => VUndef
  | (k', v) :: rest => if k =? k' then v else lookup_field k rest
  end.

(** Property read [o.k] / [o['k']] for the keys the source reads off the
    event ([headers], [authorization], [Authorization]); none of them is
    a property of a string, a number, an array or a boolean, so those
    yield [undefined]. *)
Definition get_prop (o : jsval) (k : string) : outcome jsval :=
  match o with
  | VUndef => Throws (TypeError ("Cannot read properties of undefined (reading '" ++ k ++ "')"))
  | VNull => Throws (TypeError ("Cannot read properties of null (reading '" ++ k ++ "')"))
  | VObj fields => Returns (lookup_field k fields)
  | VBool _ | VNum _ | VStr _ | VArr _ => Returns VUndef
  end.

(** [v.startsWith(p)]: a method of strings only; on any other value of
    the universe the call raises a [TypeError]. *)
Definition startsWith (v : jsval) (p : string) : outcome bool :=
  match v with
  | VStr s => Returns (String.prefix p s)
  | VUndef | VNull =>
      Throws (TypeError "Cannot read properties of undefined (reading 'startsWith')")
  | _ => Throws (TypeError "authHeader.startsWith is not a function")
  end.

(** [s.substring(n)] for a string whose first [n] characters are ASCII
    (it is applied after [startsWith('Bearer ')] only). *)
Fixpoint substring_from (n : nat) (s : string) : string :=
  match n, s with
  | O, _ => s
  | S _, EmptyString => EmptyString
  | S n', String _ rest => substring_from n' rest
  end.

Definition str_of (v : jsval) : string :=
  match v with VStr s => s | _ => "" end.

(** A text field of an SDK value, possibly missing ([string | undefined]):
    the string it holds when it is truthy, that is present and not empty. *)
Definition truthyText (x : option string) : option string :=
  match x with
  | Some s => if s =? "" then None else Some s
  | None => None
  end.

(** ** The collaborators and the observable effects *)

(** [cloud.getWXContext()]: the identity the platform injected. *)
Record WXContext : Type := mkWXContext {
  OPENID : option string;
  APPID : option string
}.

(** What [cloud.auth().verifyAccessToken(token)] resolves to, and the
    record [{ openid, uid, appid }] the resolver builds. *)
Module AuthResult.

Record t : Type := mk {
  openid : option string;
  uid : option string;
  appid : option string
}.

End AuthResult.

Module User.

Record t : Type := mk {
  openid : string;
  uid : string;
  appid : option string
}.

End User.

(** The result of [db.collection('authorized_users').where(..).get()]
    when the promise resolves.  The SDK answers with an object whose
    [data] is the array of matching documents; the code guards against a
    missing [data] ([userDoc.data && ..]), and a resolution to
    [undefined] makes the read of [.data] itself raise. *)
Inductive query_result : Type :=
| QUndefined : query_result
| QResult (data : option (list jsval)) : query_result.

(** The platform SDK object [cloud], as far as the gate uses it: one
    invocation's behaviour of each collaborator.  A collaborator either
    returns or throws (a rejected promise is a throw at the [await]); a
    context or a verifier result may be missing ([undefined]/[null]). *)
Record Cloud : Type := mkCloud {
  (** [cloud.getWXContext()] *)
  getWXContext : outcome (option WXContext);
  (** [cloud.auth().verifyAccessToken(token)] *)
  verifyAccessToken : string -> outcome (option AuthResult.t);
  (** [cloud.database().collection('authorized_users')
        .where({openid, status: 'active'}).get()] *)
  queryActive : string -> outcome query_result
}.

(** What an observer of one invocation sees besides the result. *)
Inductive effect : Type :=
| CallGetWXContext : effect
| CallVerifyAccessToken (token : string) : effect
| CallQueryActive (openid : string) : effect
| ConsoleError (msg : string) (e : exn) : effect.

Definition log := list effect.

(** Computations: the log so far in, a completion and the extended log out. *)
Definition M (A : Type) : Type := log -> outcome A * log.

Definition ret {A} (a : A) : M A := fun t => (Returns a, t).

Definition bind {A B} (m : M A) (k : A -> M B) : M B :=
  fun t => match m t with
           | (Returns a, t') => k a t'
           | (Throws e, t') => (Throws e, t')
           end.

(** [try { body } catch (e) { handler }] *)
Definition try_catch {A} (body : M A) (handler : exn -> M A) : M A :=
  fun t => match body t with
           | (Returns a, t') => (Returns a, t')
           | (Throws e, t') => handler e t'
           end.

(** A call of a collaborator: the call is put on the log, and the
    collaborator's completion is the completion of the call. *)
Definition perform {A} (ev : effect) (r : outcome A) : M A :=
  fun t => (r, (t ++ [ev])%list).

(** A pure expression that may complete abruptly. *)
Definition lift {A} (r : outcome A) : M A := fun t => (r, t).

Definition console_error (msg : string) (e : exn) : M unit :=
  perform (ConsoleError msg e) (Returns tt).

Declare Scope js_scope.
Delimit Scope js_scope with js.
Notation "x <- m ;; k" := (bind m (fun x => k))
  (at level 61, m at next level, right associativity) : js_scope.
Notation "m ;;; k" := (bind m (fun _ => k))
  (at level 61, right associativity) : js_scope.
Local Open Scope js_scope.

(** ** The source *)

(** Line 23: [const AUTHORIZED_USERS = ['oXXXXX1', 'oXXXXX2']]. *)
Definition AUTHORIZED_USERS : list string := ["oXXXXX1"; "oXXXXX2"].

(** [list.includes(s)] *)
Definition includes (l : list string) (s : string) : bool :=
  existsb (String.eqb s) l.

(** Lines 49-50: [event.headers || {}], then
    [headers['authorization'] || headers['Authorization'] || '']. *)
Definition authHeaderOf (event : jsval) : outcome jsval :=
  match get_prop event "headers" with
  | Throws e => Throws e
  | Returns hs =>
      let headers := js_or hs (VObj []) in
      match get_prop headers "authorization" with
      | Throws e => Throws e
      | Returns lower =>
          if truthy lower then Returns lower
          else match get_prop headers "Authorization" with
               | Throws e => Throws e
               | Returns upper => Returns (js_or upper (VStr ""))
               end
      end
  end.

(** Lines 47-74 of [getUserFromRequest]: the bearer path, entered when
    the platform context gave no identity.  ([authResult && authResult.openid]
    is the truthy [openid] of a result that is there; when the test fails
    control leaves the inner [try] and reaches [return null] at line 74.) *)
Definition verifyBearer (cloud : Cloud) (event : jsval) : M (option User.t) :=
  authHeader <- lift (authHeaderOf event) ;;
  bearer <- lift (startsWith authHeader "Bearer ") ;;
  if bearer : bool then
    let token := substring_from 7 (str_of authHeader) in
    try_catch
      (authResult <- perform (CallVerifyAccessToken token)
                       (verifyAccessToken cloud token) ;;
       match authResult with
       | Some r =>
           match truthyText (AuthResult.openid r) with
           | Some openid =>
               ret (Some (User.mk openid
                            match truthyText (AuthResult.uid r) with
                            | Some uid => uid
                            | None => openid
                            end
                            (AuthResult.appid r)))
           | None => ret None
           end
       | None => ret None
       end)
      (fun tokenError =>
         console_error "Token 验证失败:" tokenError ;;;
         ret None)
  else ret None.

(** Lines 75-78: the handler of the outer [try]. *)
Definition onResolveError (error : exn) : M (option User.t) :=
  console_error "获取用户信息失败:" error ;;;
  ret None.

(** Lines 34-79.  [null] is [None]. *)
Definition getUserFromRequest (cloud : Cloud) (event : jsval) : M (option User.t) :=
  try_catch
    (wxContext <- perform CallGetWXContext (getWXContext cloud) ;;
     match wxContext with
     | Some ctx =>
         match truthyText (OPENID ctx) with
         | Some openid => ret (Some (User.mk openid openid (APPID ctx)))
         | None => verifyBearer cloud event
         end
     | None => verifyBearer cloud event
     end)
    onResolveError.

(** Lines 86-112.  The parameter is a string or missing; the result is a
    JavaScript value, as [userDoc.data && ..] yields the falsy [data]
    itself when there is none. *)
Definition isUserAuthorized (cloud : Cloud) (openid : option string) : M jsval :=
  match truthyText openid with
  | None => ret (VBool false)
  | Some id =>
      if includes AUTHORIZED_USERS id then ret (VBool true)
      else
        try_catch
          (userDoc <- perform (CallQueryActive id) (queryActive cloud id) ;;
           match userDoc with
           | QUndefined =>
               lift (Throws (TypeError
                       "Cannot read properties of undefined (reading 'data')"))
           | QResult None => ret VUndef
           | QResult (Some docs) => ret (VBool (0 <? length docs)%nat)
           end)
          (fun dbError =>
             console_error "查询授权用户失败:" dbError ;;;
             ret (VBool (includes AUTHORIZED_USERS id)))
  end.

(** The object the gate returns: [{ authorized, user, error }]. *)
Record Verdict : Type := mkVerdict {
  authorized : bool;
  user : option User.t;
  error : option string
}.

(** Line 127. *)
Definition msgNoIdentity : string := "未获取到用户身份信息，请先完成微信登录".

(** Line 138: [`用户 ${user.openid} 未授权访问此应用`]. *)
Definition msgNotAuthorized (openid : string) : string :=
  "用户 " ++ openid ++ " 未授权访问此应用".

(** Lines 119-147.  ([!user || !user.openid]: no user, or a user whose
    [openid] is empty.) *)
Definition checkAuthorization (cloud : Cloud) (event : jsval) : M Verdict :=
  user <- getUserFromRequest cloud event ;;
  match user with
  | None => ret (mkVerdict false None (Some msgNoIdentity))
  | Some u =>
      match truthyText (Some (User.openid u)) with
      | None => ret (mkVerdict false None (Some msgNoIdentity))
      | Some _ =>
          authorized <- isUserAuthorized cloud (Some (User.openid u)) ;;
          if negb (truthy authorized) then
            ret (mkVerdict false user
                   (Some (msgNotAuthorized (User.openid u))))
          else
            ret (mkVerdict true user None)
      end
  end.

(** ** Notions used in the statements *)

(** The outcome of the test of line 39, [wxContext && wxContext.OPENID]:
    the subject the platform context supplies, [None] when the context is
    missing or its [OPENID] is missing or empty, or the throw of the
    accessor. *)
Definition wxOpenid (cloud : Cloud) : outcome (option string) :=
  match getWXContext cloud with
  | Returns (Some ctx) => Returns (truthyText (OPENID ctx))
  | Returns None => Returns None
  | Throws e => Throws e
  end.

(** The calls to the token verifier recorded in a log. *)
Definition verifierCalls (t : log) : list string :=
  flat_map (fun ev => match ev with
                      | CallVerifyAccessToken token => [token]
                      | _ => []
                      end) t.

(** The calls to the durable store recorded in a log. *)
Definition storeCalls (t : log) : list string :=
  flat_map (fun ev => match ev with
                      | CallQueryActive openid => [openid]
                      | _ => []
                      end) t.

(** The identities the resolver builds have a non-empty [openid] and [uid]. *)
Definition wellFormed (u : option User.t) : Prop :=
  match u with
  | Some u => User.openid u <> "" /\ User.uid u <> ""
  | None => True
  end.

(** The bearer path under the outer [try] of the resolver: what
    [getUserFromRequest] does once the context test of line 39 has failed. *)
Definition bearerPath (cloud : Cloud) (event : jsval) : M (option User.t) :=
  try_catch (verifyBearer cloud event) onResolveError.

(** What the [catch] of line 107 receives, if anything: the value the
    store threw, or the [TypeError] of reading [.data] off a resolution to
    [undefined]. *)
Definition storeFailure (r : outcome query_result) : option exn :=
  match r with
  | Throws e => Some e
  | Returns QUndefined =>
      Some (TypeError "Cannot read properties of undefined (reading 'data')")
  | Returns (QResult _) => None
  end.

(** ** Sample collaborators and events *)

(** A verifier that knows two tokens and rejects every other one. *)
Definition sampleVerifier (token : string) : outcome (option AuthResult.t) :=
  if token =? "tokB" then Returns (Some (AuthResult.mk (Some "userB") None None))
  else if token =? "tokC" then
    Returns (Some (AuthResult.mk (Some "userC") (Some "uidC") None))
  else Throws (Thrown (VStr "invalid token")).

(** A verifier that accepts whatever it is given. *)
Definition lenientVerifier (token : string) : outcome (option AuthResult.t) :=
  Returns (Some (AuthResult.mk (Some "userB") None None)).

(** A store that holds one active record, for [userB]. *)
Definition sampleStore (openid : string) : outcome query_result :=
  if openid =? "userB"
  then Returns (QResult (Some [VObj [("openid", VStr openid);
                                     ("status", VStr "active")]]))
  else Returns (QResult (Some [])).

(** A store that cannot be reached. *)
Definition brokenStore (openid : string) : outcome query_result :=
  Throws (Thrown (VStr "ETIMEDOUT")).

(** A store whose answer carries no [data]. *)
Definition dataLessStore (openid : string) : outcome query_result :=
  Returns (QResult None).

(** An HTTP invocation: the platform context carries no [OPENID]. *)
Definition httpCloud : Cloud :=
  mkCloud (Returns (Some (mkWXContext None None))) sampleVerifier sampleStore.

(** An invocation through the platform's own transport by [openid]. *)
Definition wxCloud (openid : string) : Cloud :=
  mkCloud (Returns (Some (mkWXContext (Some openid) (Some "wxapp"))))
          sampleVerifier sampleStore.

(** An event whose header map holds one entry. *)
Definition headerEvent (key : string) (value : jsval) : jsval :=
  VObj [("headers", VObj [(key, value)])].

(** An event without headers. *)
Definition bareEvent : jsval := VObj [].

(** ** The handler [exports.main] (lines 152-189) *)

(** The object a handler answers with: [{ code, message, data }]. *)
Record Response : Type := mkResponse {
  code : Z;
  message : jsval;
  data : jsval
}.

(** What an observer of the handler sees: the effects of the gate in
    their order, the [console.log] of line 166, the query of the [tracks]
    collection (lines 170-174) and the [console.error] of line 182. *)
Inductive main_effect : Type :=
| Auth (e : effect) : main_effect
| ConsoleLog (msg : string) : main_effect
| CallTracksGet : main_effect
| ConsoleErrorMain (msg : string) (e : exn) : main_effect.

(** Computations of the handler, over its own log. *)
Definition HM (A : Type) : Type :=
  list main_effect -> outcome A * list main_effect.

Definition hret {A} (a : A) : HM A := fun t => (Returns a, t).

Definition hbind {A B} (m : HM A) (k : A -> HM B) : HM B :=
  fun t => match m t with
           | (Returns a, t') => k a t'
           | (Throws e, t') => (Throws e, t')
           end.

Definition htry_catch {A} (body : HM A) (handler : exn -> HM A) : HM A :=
  fun t => match body t with
           | (Returns a, t') => (Returns a, t')
           | (Throws e, t') => handler e t'
           end.

Definition hperform {A} (ev : main_effect) (r : outcome A) : HM A :=
  fun t => (r, (t ++ [ev])%list).

Definition hlift {A} (r : outcome A) : HM A := fun t => (r, t).

(** A call into the gate: its completion, and its effects put on the
    handler's log in the order they happened. *)
Definition run_gate {A} (m : M A) : HM A :=
  fun t => match m [] with
           | (r, l) => (r, (t ++ map Auth l)%list)
           end.

Declare Scope handler_scope.
Delimit Scope handler_scope with handler.
Notation "x <- m ;; k" := (hbind m (fun x => k))
  (at level 61, m at next level, right associativity) : handler_scope.
Notation "m ;;; k" := (hbind m (fun _ => k))
  (at level 61, right associativity) : handler_scope.

(** [error.message] in the handler of line 181: the message of a
    [TypeError], or the property of whatever value was thrown ([message]
    is no property of a string, a number, an array or a boolean); reading
    it off [undefined] or [null] raises. *)
Definition errorMessage (error : exn) : outcome jsval :=
  match error with
  | TypeError msg => Returns (VStr msg)
  | Thrown v => get_prop v "message"
  end.

(** What [db.collection('tracks').orderBy(..).limit(200).get()] does in
    one invocation is a parameter, [tracksGet], like the collaborators of
    [cloud].  The second parameter of the handler, [context], is not used
    by the body. *)
Definition main (cloud : Cloud) (tracksGet : outcome query_result)
           (event context : jsval) : HM Response :=
  (authResult <- run_gate (checkAuthorization cloud event) ;;
   if negb (authorized authResult) then
     hret (mkResponse 403
             (VStr match truthyText (error authResult) with
                   | Some msg => msg
                   | None => "未授权访问"
                   end)
             VNull)
   else
     openid <- hlift match user authResult with
                     | Some u => Returns (User.openid u)
                     | None => Throws (TypeError
                                 "Cannot read properties of null (reading 'openid')")
                     end ;;
     hperform (ConsoleLog ("授权用户 " ++ openid ++ " 正在访问 getTracks"))
              (Returns tt) ;;;
     htry_catch
       (tracks <- hperform CallTracksGet tracksGet ;;
        match tracks with
        | QUndefined =>
            hlift (Throws (TypeError
                     "Cannot read properties of undefined (reading 'data')"))
        | QResult d =>
            hret (mkResponse 0 (VStr "success")
                    match d with
                    | Some docs => VArr docs
                    | None => VUndef
                    end)
        end)
       (fun error =>
          hperform (ConsoleErrorMain "获取轨迹列表失败:" error) (Returns tt) ;;;
          msg <- hlift (errorMessage error) ;;
          hret (mkResponse 500 (js_or msg (VStr "服务器内部错误")) VNull)))%handler.

(** ** The handler of the configuration guide (section 3.2, lines 80-95
    of the guide) *)

(** The short handler the guide gives for [getTracks]: the platform
    context only, the static list only, no [try].  Its body ends after the
    test (the business logic is left to the reader), so a caller that
    passes the test gets [undefined], here [None]. *)
Definition guideMain (cloud : Cloud) (event context : jsval) : M (option Response) :=
  wxContext <- perform CallGetWXContext (getWXContext cloud) ;;
  openid <- lift match wxContext with
                 | Some ctx => Returns (OPENID ctx)
                 | None => Throws (TypeError
                             "Cannot read properties of undefined (reading 'OPENID')")
                 end ;;
  match truthyText openid with
  | None => ret (Some (mkResponse 403 (VStr "未授权访问") VNull))
  | Some id =>
      if includes AUTHORIZED_USERS id then ret None
      else ret (Some (mkResponse 403 (VStr "未授权访问") VNull))
  end.

(** The effects of the handler itself in a log, and the queries of the
    [tracks] collection among them. *)
Definition tracksCalls (t : list main_effect) : nat :=
  length (filter (fun ev => match ev with CallTracksGet => true | _ => false end) t).

(** A store for [tracks] that answers with two documents, and one that
    rejects with an [Error] object. *)
Definition sampleTracks : outcome query_result :=
  Returns (QResult (Some [VObj [("name", VStr "t1")]; VObj [("name", VStr "t2")]])).

Definition failingTracks : outcome query_result :=
  Throws (Thrown (VObj [("message", VStr "connect ETIMEDOUT 10.0.0.5:27017")])).

(** ** Further notions *)

(** The store answered the query with at least one document. *)
Definition storeHasRecord (r : outcome query_result) : bool :=
  match r with
  | Returns (QResult (Some docs)) => (0 <? length docs)%nat
  | _ => false
  end.

(** The reads of the platform context recorded in a log. *)
Definition contextReads (t : log) : nat :=
  length (filter (fun ev => match ev with CallGetWXContext => true | _ => false end) t).

(** The [console.error] calls recorded in a log. *)
Definition errorsLogged (t : log) : nat :=
  length (filter (fun ev => match ev with ConsoleError _ _ => true | _ => false end) t).

(** The value of [(event.headers || {})[key]] for an event that is
    there (not [undefined] or [null]): the entry of the header map when
    [event.headers] is an object, [undefined] otherwise. *)
Definition headerValue (event : jsval) (key : string) : jsval :=
  match event with
  | VObj fields =>
      match lookup_field "headers" fields with
      | VObj hs => lookup_field key hs
      | _ => VUndef
      end
  | _ => VUndef
  end.

(** The identity in a verifier's result (lines 61-67): there is one when
    the result is there and carries a non-empty [openid]; its [uid] is the
    result's when that is not empty, and the [openid] otherwise. *)
Definition identityOf (authResult : option AuthResult.t) : option User.t :=
  match authResult with
  | Some r =>
      match truthyText (AuthResult.openid r) with
      | Some openid =>
          Some (User.mk openid
                  match truthyText (AuthResult.uid r) with
                  | Some uid => uid
                  | None => openid
                  end
                  (AuthResult.appid r))
      | None => None
      end
  | None => None
  end.

(** An event as an HTTP trigger delivers it: a path, a method, and a
    header map that holds an authorization header under two keys. *)
Definition requestEvent : jsval :=
  VObj [("path", VStr "/getTracks");
        ("httpMethod", VStr "GET");
        ("headers", VObj [("content-type", VStr "application/json");
                          ("AUTHORIZATION", VStr "Bearer tokC");
                          ("Authorization", VStr "Bearer tokB")])].

(** A computation that only adds to the log it is given. *)
Definition appends {A} (m : M A) : Prop :=
  forall t : log, m t = (fst (m []), (t ++ snd (m []))%list).

(** * Properties *)

Ltac run_monad :=
  unfold try_catch, onResolveError, bind, perform, lift, ret, console_error; simpl.

(** ** Basic facts about values, logs and text *)

Lemma truthyText_Some (x : option string) (s : string) :
  truthyText x = Some s -> x = Some s /\ s <> "".
Proof.
  destruct x as [s'|]; simpl; [|discriminate].
  destruct (String.eqb_spec s' ""); [discriminate|].
  intros H. injection H as <-. auto.
Qed.

Lemma truthyText_nonempty (s : string) :
  s <> "" -> truthyText (Some s) = Some s.
Proof.
  intros H. simpl. destruct (String.eqb_spec s ""); [contradiction | reflexivity].
Qed.

Lemma verifierCalls_app (t1 t2 : log) :
  verifierCalls (t1 ++ t2)%list = (verifierCalls t1 ++ verifierCalls t2)%list.
Proof. unfold verifierCalls. apply flat_map_app. Qed.

Lemma storeCalls_app (t1 t2 : log) :
  storeCalls (t1 ++ t2)%list = (storeCalls t1 ++ storeCalls t2)%list.
Proof. unfold storeCalls. apply flat_map_app. Qed.

Lemma startsWith_cases (h : jsval) (p : string) :
  startsWith h p = Returns true \/ startsWith h p = Returns false \/
  exists e, startsWith h p = Throws e.
Proof.
  destruct h; simpl; eauto. destruct (prefix p s); auto.
Qed.

Lemma includes_nonempty (s : string) :
  includes AUTHORIZED_USERS s = true -> s <> "".
Proof. intros H ->. discriminate H. Qed.

(** Lines 49-50 on an event with a header map. *)
Lemma authHeaderOf_headers (hs : list (string * jsval)) :
  authHeaderOf (VObj [("headers", VObj hs)]) =
    Returns (js_or (lookup_field "authorization" hs)
                   (js_or (lookup_field "Authorization" hs) (VStr ""))).
Proof.
  unfold authHeaderOf, js_or. simpl.
  destruct (truthy (lookup_field "authorization" hs)); reflexivity.
Qed.

Lemma authHeaderOf_other_key (key : string) (v : jsval) :
  key <> "authorization" -> key <> "Authorization" ->
  authHeaderOf (headerEvent key v) = Returns (VStr "").
Proof.
  intros H1 H2. unfold headerEvent. rewrite authHeaderOf_headers.
  cbn [lookup_field].
  assert (E1 : ("authorization" =? key) = false)
    by (apply String.eqb_neq; congruence).
  assert (E2 : ("Authorization" =? key) = false)
    by (apply String.eqb_neq; congruence).
  rewrite E1, E2. reflexivity.
Qed.

Lemma authHeaderOf_two_spellings (v : jsval) :
  authHeaderOf (headerEvent "authorization" v) =
  authHeaderOf (headerEvent "Authorization" v).
Proof.
  unfold headerEvent. rewrite !authHeaderOf_headers. simpl.
  unfold js_or. simpl. destruct (truthy v); reflexivity.
Qed.




Section Collaborators.

Variable cloud : Cloud.

(** ** The resolver, path by path *)

(** The accessor of the platform context throws: caught at line 75. *)
Lemma resolve_context_throws (event : jsval) (t : log) (e : exn) :
  getWXContext cloud = Throws e ->
  getUserFromRequest cloud event t =
    (Returns None,
     (t ++ [CallGetWXContext] ++ [ConsoleError "获取用户信息失败:" e])%list).
Proof.
  intros H. unfold getUserFromRequest. run_monad. rewrite H.
  rewrite <- app_assoc. reflexivity.
Qed.

(** Path 1 (lines 38-45): the context carries a truthy [OPENID]. *)
Lemma resolve_trusted (event : jsval) (t : log) (ctx : WXContext) (id : string) :
  getWXContext cloud = Returns (Some ctx) ->
  truthyText (OPENID ctx) = Some id ->
  getUserFromRequest cloud event t =
    (Returns (Some (User.mk id id (APPID ctx))), (t ++ [CallGetWXContext])%list).
Proof.
  intros Hw Ho. unfold getUserFromRequest. run_monad. rewrite Hw, Ho.
  reflexivity.
Qed.

(** Path 2 is entered (line 47). *)
Lemma resolve_untrusted (event : jsval) (t : log) :
  wxOpenid cloud = Returns None ->
  getUserFromRequest cloud event t =
    bearerPath cloud event (t ++ [CallGetWXContext])%list.
Proof.
  unfold wxOpenid. intros Ho.
  unfold getUserFromRequest, bearerPath. run_monad.
  destruct (getWXContext cloud) as [[ctx|]|e]; try discriminate.
  - injection Ho as Ho. rewrite Ho. reflexivity.
  - reflexivity.
Qed.

(** Reading the header raises (the event itself is [undefined] or
    [null]): caught at line 75. *)
Lemma bearer_no_event (event : jsval) (t : log) (e : exn) :
  authHeaderOf event = Throws e ->
  bearerPath cloud event t =
    (Returns None, (t ++ [ConsoleError "获取用户信息失败:" e])%list).
Proof.
  intros Hh. unfold bearerPath, verifyBearer. run_monad. rewrite Hh. reflexivity.
Qed.

(** Line 52 is false: the header is taken as absent. *)
Lemma bearer_absent (event : jsval) (t : log) (h : jsval) :
  authHeaderOf event = Returns h ->
  startsWith h "Bearer " = Returns false ->
  bearerPath cloud event t = (Returns None, t).
Proof.
  intros Hh Hs. unfold bearerPath, verifyBearer. run_monad. rewrite Hh, Hs.
  reflexivity.
Qed.

(** Line 52 raises (the header value is not text): caught at line 75. *)
Lemma bearer_not_text (event : jsval) (t : log) (h : jsval) (e : exn) :
  authHeaderOf event = Returns h ->
  startsWith h "Bearer " = Throws e ->
  bearerPath cloud event t =
    (Returns None, (t ++ [ConsoleError "获取用户信息失败:" e])%list).
Proof.
  intros Hh Hs. unfold bearerPath, verifyBearer. run_monad. rewrite Hh, Hs.
  reflexivity.
Qed.

(** Line 52 is true: the verifier is called once, with what follows the
    first seven characters of the header, and the path ends normally with
    a well-formed result. *)
Lemma bearer_verified (event : jsval) (t : log) (h : jsval) :
  authHeaderOf event = Returns h ->
  startsWith h "Bearer " = Returns true ->
  exists r t',
    bearerPath cloud event t = (Returns r, t') /\
    wellFormed r /\
    verifierCalls t' = (verifierCalls t ++ [substring_from 7 (str_of h)])%list.
Proof.
  intros Hh Hs. unfold bearerPath, verifyBearer. run_monad. rewrite Hh, Hs.
  destruct (verifyAccessToken cloud _) as [[r|]|e].
  - destruct (truthyText (AuthResult.openid r)) as [id|] eqn:Hid.
    + do 2 eexists. split; [reflexivity|]. split; [|apply verifierCalls_app].
      simpl. split; [apply (truthyText_Some _ _ Hid)|].
      destruct (truthyText (AuthResult.uid r)) as [u|] eqn:Hu.
      * apply (truthyText_Some _ _ Hu).
      * apply (truthyText_Some _ _ Hid).
    + do 2 eexists. split; [reflexivity|]. split; [exact I|].
      apply verifierCalls_app.
  - do 2 eexists. split; [reflexivity|]. split; [exact I|].
    apply verifierCalls_app.
  - do 2 eexists. split; [reflexivity|]. split; [exact I|].
    rewrite !verifierCalls_app. simpl. rewrite app_nil_r. reflexivity.
Qed.

(** The verifier throws: caught at line 68. *)
Lemma bearer_rejected (event : jsval) (t : log) (token : string) (e : exn) :
  authHeaderOf event = Returns (VStr ("Bearer " ++ token)) ->
  verifyAccessToken cloud token = Throws e ->
  bearerPath cloud event t =
    (Returns None,
     (t ++ [CallVerifyAccessToken token] ++ [ConsoleError "Token 验证失败:" e])%list).
Proof.
  intros Hh Hv. unfold bearerPath, verifyBearer. run_monad. rewrite Hh. simpl.
  replace (prefix "" token) with true by (destruct token; reflexivity).
  rewrite Hv. rewrite <- app_assoc. reflexivity.
Qed.

(** The bearer path never raises. *)
Lemma bearerPath_total (event : jsval) (t : log) :
  exists r t', bearerPath cloud event t = (Returns r, t') /\ wellFormed r.
Proof.
  destruct (authHeaderOf event) as [h|e] eqn:Hh.
  - destruct (startsWith_cases h "Bearer ") as [Hs | [Hs | [e Hs]]].
    + destruct (bearer_verified event t h Hh Hs) as (r & t' & Hrun & Hwf & _).
      eauto.
    + rewrite (bearer_absent event t h Hh Hs). do 2 eexists. split; [reflexivity|exact I].
    + rewrite (bearer_not_text event t h e Hh Hs).
      do 2 eexists. split; [reflexivity|exact I].
  - rewrite (bearer_no_event event t e Hh).
    do 2 eexists. split; [reflexivity|exact I].
Qed.

(** The resolver never raises, and what it builds is well formed. *)
Lemma resolve_total (event : jsval) (t : log) :
  exists r t', getUserFromRequest cloud event t = (Returns r, t') /\ wellFormed r.
Proof.
  destruct (getWXContext cloud) as [[ctx|]|e] eqn:Hw.
  - destruct (truthyText (OPENID ctx)) as [id|] eqn:Ho.
    + rewrite (resolve_trusted event t ctx id Hw Ho).
      do 2 eexists. split; [reflexivity|].
      destruct (truthyText_Some _ _ Ho) as [_ Hne]. simpl. auto.
    + rewrite resolve_untrusted; [apply bearerPath_total|].
      unfold wxOpenid. rewrite Hw, Ho. reflexivity.
  - rewrite resolve_untrusted; [apply bearerPath_total|].
    unfold wxOpenid. rewrite Hw. reflexivity.
  - rewrite (resolve_context_throws event t e Hw).
    do 2 eexists. split; [reflexivity|exact I].
Qed.

Lemma resolve_header_only (event event' : jsval) (t : log) :
  authHeaderOf event = authHeaderOf event' ->
  getUserFromRequest cloud event t = getUserFromRequest cloud event' t.
Proof.
  intros H. unfold getUserFromRequest, verifyBearer. run_monad.
  rewrite H. reflexivity.
Qed.

(** ** The checker, path by path *)

(** Line 87: a missing or empty identifier is refused before anything else. *)
Lemma check_missing (openid : option string) (t : log) :
  truthyText openid = None ->
  isUserAuthorized cloud openid t = (Returns (VBool false), t).
Proof.
  intros H. unfold isUserAuthorized. rewrite H. reflexivity.
Qed.

(** Line 92: a member of the static list is accepted at once. *)
Lemma check_static (id : string) (t : log) :
  includes AUTHORIZED_USERS id = true ->
  isUserAuthorized cloud (Some id) t = (Returns (VBool true), t).
Proof.
  intros H. unfold isUserAuthorized.
  rewrite (truthyText_nonempty id (includes_nonempty id H)), H. reflexivity.
Qed.

(** Lines 97-106: the store answers. *)
Lemma check_store_answers (id : string) (t : log) (data : option (list jsval)) :
  id <> "" ->
  includes AUTHORIZED_USERS id = false ->
  queryActive cloud id = Returns (QResult data) ->
  isUserAuthorized cloud (Some id) t =
    (Returns match data with
             | Some docs => VBool (0 <? length docs)%nat
             | None => VUndef
             end,
     (t ++ [CallQueryActive id])%list).
Proof.
  intros Ht Hs Hq. unfold isUserAuthorized.
  rewrite (truthyText_nonempty id Ht), Hs. run_monad.
  rewrite Hq. destruct data; reflexivity.
Qed.

(** Lines 107-111: the query fails; the handler logs the failure and
    answers from the static list. *)
Lemma check_store_fails (id : string) (t : log) (e : exn) :
  id <> "" ->
  includes AUTHORIZED_USERS id = false ->
  storeFailure (queryActive cloud id) = Some e ->
  isUserAuthorized cloud (Some id) t =
    (Returns (VBool (includes AUTHORIZED_USERS id)),
     (t ++ [CallQueryActive id] ++ [ConsoleError "查询授权用户失败:" e])%list).
Proof.
  intros Ht Hs Hq. unfold isUserAuthorized.
  rewrite (truthyText_nonempty id Ht), Hs. run_monad.
  destruct (queryActive cloud id) as [[|data]|e']; simpl in Hq;
    try discriminate; injection Hq as <-;
    rewrite <- app_assoc; reflexivity.
Qed.

(** The checker never raises; its result is a boolean or [undefined]. *)
Lemma check_total (openid : option string) (t : log) :
  exists a t', isUserAuthorized cloud openid t = (Returns a, t') /\
               (a = VUndef \/ exists b, a = VBool b).
Proof.
  assert (Hshape : forall (a : jsval) (t1 : log) (r : outcome jsval * log),
             r = (Returns a, t1) -> (a = VUndef \/ exists b, a = VBool b) ->
             exists a' t', r = (Returns a', t') /\
                           (a' = VUndef \/ exists b, a' = VBool b))
    by (intros a t1 r -> Ha; eauto).
  destruct (truthyText openid) as [id|] eqn:Ht.
  - destruct (truthyText_Some _ _ Ht) as [-> Hne].
    destruct (includes AUTHORIZED_USERS id) eqn:Hs.
    + eapply Hshape; [apply (check_static _ _ Hs) | eauto].
    + destruct (storeFailure (queryActive cloud id)) as [e|] eqn:Hq.
      * eapply Hshape; [apply (check_store_fails _ _ e Hne Hs Hq) | eauto].
      * destruct (queryActive cloud id) as [[|data]|e'] eqn:Hq';
          simpl in Hq; try discriminate.
        eapply Hshape; [apply (check_store_answers _ _ data Hne Hs Hq') |].
        destruct data; eauto.
  - eapply Hshape; [apply (check_missing _ _ Ht) | eauto].
Qed.

(** ** The gate, verdict by verdict *)

Lemma gate_unresolved (event : jsval) (t t1 : log) :
  getUserFromRequest cloud event t = (Returns None, t1) ->
  checkAuthorization cloud event t =
    (Returns (mkVerdict false None (Some msgNoIdentity)), t1).
Proof.
  intros H. unfold checkAuthorization. run_monad. rewrite H. reflexivity.
Qed.

Lemma gate_resolved (event : jsval) (t t1 t2 : log) (u : User.t) (a : jsval) :
  getUserFromRequest cloud event t = (Returns (Some u), t1) ->
  User.openid u <> "" ->
  isUserAuthorized cloud (Some (User.openid u)) t1 = (Returns a, t2) ->
  checkAuthorization cloud event t =
    (Returns (if truthy a
              then mkVerdict true (Some u) None
              else mkVerdict false (Some u)
                     (Some (msgNotAuthorized (User.openid u)))),
     t2).
Proof.
  intros Hu Hne Ha. unfold checkAuthorization. run_monad. rewrite Hu.
  destruct (String.eqb_spec (User.openid u) ""); [contradiction|].
  rewrite Ha. destruct (truthy a); reflexivity.
Qed.

(** Every run of the gate is one of the three above. *)
Lemma gate_cases (event : jsval) (t : log) :
  exists r t1,
    getUserFromRequest cloud event t = (Returns r, t1) /\
    wellFormed r /\
    match r with
    | None =>
        checkAuthorization cloud event t =
          (Returns (mkVerdict false None (Some msgNoIdentity)), t1)
    | Some u =>
        exists a t2,
          isUserAuthorized cloud (Some (User.openid u)) t1 = (Returns a, t2) /\
          checkAuthorization cloud event t =
            (Returns (if truthy a
                      then mkVerdict true (Some u) None
                      else mkVerdict false (Some u)
                             (Some (msgNotAuthorized (User.openid u)))),
             t2)
    end.
Proof.
  destruct (resolve_total event t) as (r & t1 & Hr & Hwf).
  exists r, t1. split; [assumption|]. split; [assumption|].
  destruct r as [u|].
  - destruct Hwf as [Hne _].
    destruct (check_total (Some (User.openid u)) t1) as (a & t2 & Ha & _).
    exists a, t2. split; [assumption|].
    apply (gate_resolved event t t1 t2 u a Hr Hne Ha).
  - apply gate_unresolved; assumption.
Qed.

End Collaborators.

(** ** The resolver (C8, C9, C4, C5) *)

(** C8: the resolver never raises.  Whatever the event and whatever the
    platform-context accessor and the token verifier do (return anything,
    or throw), [getUserFromRequest] completes normally, with [null] or
    with an identity whose [openid] and [uid] are not empty; a throw of
    the accessor, and a throw of the verifier on the bearer path, both end
    in [null]. *)
Theorem getUserFromRequest_never_raises :
  forall (cloud : Cloud) (event : jsval) (t : log),
  exists (r : option User.t) (t' : log),
    getUserFromRequest cloud event t = (Returns r, t') /\
    wellFormed r /\
    (forall e : exn, getWXContext cloud = Throws e -> r = None) /\
    (forall (token : string) (e : exn),
        wxOpenid cloud = Returns None ->
        authHeaderOf event = Returns (VStr ("Bearer " ++ token)) ->
        verifyAccessToken cloud token = Throws e ->
        r = None).
Proof.
  intros cloud event t.
  destruct (resolve_total cloud event t) as (r & t' & Hrun & Hwf).
  exists r, t'. split; [assumption|]. split; [assumption|]. split.
  - intros e He.
    rewrite (resolve_context_throws cloud event t e He) in Hrun.
    injection Hrun as <- _. reflexivity.
  - intros token e Ho Hh Hv.
    rewrite (resolve_untrusted cloud event t Ho) in Hrun.
    rewrite (bearer_rejected cloud event _ token e Hh Hv) in Hrun.
    injection Hrun as <- _. reflexivity.
Qed.

(** C9: when the platform context carries a usable subject identifier,
    the resolver returns the identity built from the context for every
    event: the only effect is the read of the context, so neither the
    headers of the event nor the token verifier take part. *)
Theorem trusted_context_is_authoritative :
  forall (cloud : Cloud) (event : jsval) (t : log) (ctx : WXContext) (id : string),
    getWXContext cloud = Returns (Some ctx) ->
    truthyText (OPENID ctx) = Some id ->
    getUserFromRequest cloud event t =
      (Returns (Some (User.mk id id (APPID ctx))), (t ++ [CallGetWXContext])%list) /\
    verifierCalls (t ++ [CallGetWXContext])%list = verifierCalls t.
Proof.
  intros cloud event t ctx id Hw Ho. split.
  - apply resolve_trusted; assumption.
  - rewrite verifierCalls_app. simpl. apply app_nil_r.
Qed.

(** C9 at an event that also carries a bearer token of another subject. *)
Lemma trusted_context_is_authoritative_witness :
  getWXContext (wxCloud "userA") =
    Returns (Some (mkWXContext (Some "userA") (Some "wxapp"))) /\
  verifyAccessToken (wxCloud "userA") "tokB" =
    Returns (Some (AuthResult.mk (Some "userB") None None)) /\
  getUserFromRequest (wxCloud "userA")
                     (headerEvent "authorization" (VStr "Bearer tokB")) [] =
    (Returns (Some (User.mk "userA" "userA" (Some "wxapp"))), [CallGetWXContext]) /\
  verifierCalls [CallGetWXContext] = verifierCalls [].
Proof.
  split; [reflexivity|]. split; [reflexivity|].
  apply (trusted_context_is_authoritative (wxCloud "userA")
           (headerEvent "authorization" (VStr "Bearer tokB")) []
           (mkWXContext (Some "userA") (Some "wxapp")) "userA");
    reflexivity.
Defined.

(** C4, as stated, against the code: the same valid bearer credential is
    resolved under the key [authorization] and is not found under the
    keys [AUTHORIZATION] and [AuThOrIzAtIoN]. *)
Lemma header_key_case_counterexample :
  fst (getUserFromRequest httpCloud (headerEvent "authorization" (VStr "Bearer tokB")) []) =
    Returns (Some (User.mk "userB" "userB" None)) /\
  fst (getUserFromRequest httpCloud (headerEvent "AUTHORIZATION" (VStr "Bearer tokB")) []) =
    Returns None /\
  fst (getUserFromRequest httpCloud (headerEvent "AuThOrIzAtIoN" (VStr "Bearer tokB")) []) =
    Returns None /\
  fst (getUserFromRequest httpCloud (headerEvent "AUTHORIZATION" (VStr "Bearer tokB")) []) <>
  fst (getUserFromRequest httpCloud (headerEvent "authorization" (VStr "Bearer tokB")) []).
Proof.
  repeat split; try reflexivity. vm_compute. intros H. discriminate H.
Qed.

(** The header value and the verifier decide (lines 52-74): what the
    bearer path does with the value [h] found for the header. *)
Lemma bearerPath_run (cloud : Cloud) (event : jsval) (t : log) (h : jsval) :
  authHeaderOf event = Returns h ->
  bearerPath cloud event t =
    match startsWith h "Bearer " with
    | Returns true =>
        match verifyAccessToken cloud (substring_from 7 (str_of h)) with
        | Returns authResult =>
            (Returns (identityOf authResult),
             (t ++ [CallVerifyAccessToken (substring_from 7 (str_of h))])%list)
        | Throws e =>
            (Returns None,
             (t ++ [CallVerifyAccessToken (substring_from 7 (str_of h));
                    ConsoleError "Token 验证失败:" e])%list)
        end
    | Returns false => (Returns None, t)
    | Throws e => (Returns None, (t ++ [ConsoleError "获取用户信息失败:" e])%list)
    end.
Proof.
  intros Hh. unfold bearerPath, verifyBearer. run_monad. rewrite Hh.
  destruct (startsWith h "Bearer ") as [[|]|e]; try reflexivity.
  destruct (verifyAccessToken cloud _) as [[ar|]|e]; simpl.
  - destruct (truthyText (AuthResult.openid ar)); reflexivity.
  - reflexivity.
  - rewrite <- app_assoc. reflexivity.
Qed.

(** Lines 49-50 on every event that is there: the two keys are read off
    the header map when [event.headers] is an object, and off nothing
    otherwise. *)
Lemma authHeaderOf_every_event (event : jsval) :
  event <> VUndef -> event <> VNull ->
  authHeaderOf event =
    Returns (js_or (headerValue event "authorization")
                   (js_or (headerValue event "Authorization") (VStr ""))).
Proof.
  intros Hu Hn. destruct event as [| |b|n|s|elems|fields]; try reflexivity;
    try contradiction.
  unfold authHeaderOf, headerValue. cbn [get_prop].
  destruct (lookup_field "headers" fields) as [| |b|n|s|elems|hs];
    try reflexivity.
  - destruct b; reflexivity.
  - unfold js_or. simpl. destruct (n =? 0)%Z; reflexivity.
  - unfold js_or. simpl. destruct (s =? ""); reflexivity.
  - unfold js_or. cbn [truthy get_prop].
    destruct (truthy (lookup_field "authorization" hs)); reflexivity.
Qed.

(** The resolver without a usable platform context, on every event that
    is there. *)
Lemma resolve_by_header (cloud : Cloud) (event : jsval) (t : log) (h : jsval) :
  wxOpenid cloud = Returns None ->
  authHeaderOf event = Returns h ->
  getUserFromRequest cloud event t =
    match startsWith h "Bearer " with
    | Returns true =>
        match verifyAccessToken cloud (substring_from 7 (str_of h)) with
        | Returns authResult =>
            (Returns (identityOf authResult),
             (t ++ [CallGetWXContext;
                    CallVerifyAccessToken (substring_from 7 (str_of h))])%list)
        | Throws e =>
            (Returns None,
             (t ++ [CallGetWXContext;
                    CallVerifyAccessToken (substring_from 7 (str_of h));
                    ConsoleError "Token 验证失败:" e])%list)
        end
    | Returns false => (Returns None, (t ++ [CallGetWXContext])%list)
    | Throws e =>
        (Returns None,
         (t ++ [CallGetWXContext; ConsoleError "获取用户信息失败:" e])%list)
    end.
Proof.
  intros Ho Hh.
  rewrite (resolve_untrusted cloud event t Ho), (bearerPath_run cloud event _ h Hh).
  destruct (startsWith h "Bearer ") as [[|]|e]; try reflexivity.
  - destruct (verifyAccessToken cloud _) as [ar|e];
      rewrite <- app_assoc; reflexivity.
  - rewrite <- app_assoc. reflexivity.
Qed.

(** C4, amended: for every event, the resolver takes as the
    authorization header the value of the header map at the key
    [authorization] and, when nothing truthy is there, at the key
    [Authorization], by exact match, whatever else the event and the map
    hold; without a usable platform context that value alone decides what
    the resolver does.  So a value resolves the same under either of the
    two spellings, and a header held under another capitalization only is
    not found: the resolver returns [null] having done nothing but read
    the context.  (An event that is [undefined] or [null] has no header
    map to read: the read raises, and the resolver logs and returns
    [null].) *)
Theorem header_key_two_spellings :
  forall (cloud : Cloud) (event : jsval) (t : log),
    wxOpenid cloud = Returns None ->
    (event = VUndef \/ event = VNull ->
     exists e : exn,
       authHeaderOf event = Throws e /\
       getUserFromRequest cloud event t =
         (Returns None,
          (t ++ [CallGetWXContext; ConsoleError "获取用户信息失败:" e])%list)) /\
    (event <> VUndef ->
     event <> VNull ->
    let found :=
      js_or (headerValue event "authorization")
            (js_or (headerValue event "Authorization") (VStr "")) in
    authHeaderOf event = Returns found /\
    getUserFromRequest cloud event t =
      match startsWith found "Bearer " with
      | Returns true =>
          match verifyAccessToken cloud (substring_from 7 (str_of found)) with
          | Returns authResult =>
              (Returns (identityOf authResult),
               (t ++ [CallGetWXContext;
                      CallVerifyAccessToken (substring_from 7 (str_of found))])%list)
          | Throws e =>
              (Returns None,
               (t ++ [CallGetWXContext;
                      CallVerifyAccessToken (substring_from 7 (str_of found));
                      ConsoleError "Token 验证失败:" e])%list)
          end
      | Returns false => (Returns None, (t ++ [CallGetWXContext])%list)
      | Throws e =>
          (Returns None,
           (t ++ [CallGetWXContext; ConsoleError "获取用户信息失败:" e])%list)
      end /\
    (truthy (headerValue event "authorization") = false ->
     truthy (headerValue event "Authorization") = false ->
     getUserFromRequest cloud event t =
       (Returns None, (t ++ [CallGetWXContext])%list)) /\
    (forall event' : jsval,
        event' <> VUndef -> event' <> VNull ->
        js_or (headerValue event' "authorization")
              (js_or (headerValue event' "Authorization") (VStr "")) = found ->
        getUserFromRequest cloud event' t = getUserFromRequest cloud event t) /\
    (forall v : jsval,
        getUserFromRequest cloud (headerEvent "authorization" v) t =
        getUserFromRequest cloud (headerEvent "Authorization" v) t) /\
    (forall (key : string) (v : jsval),
        key <> "authorization" -> key <> "Authorization" ->
        getUserFromRequest cloud (headerEvent key v) t =
          (Returns None, (t ++ [CallGetWXContext])%list))).
Proof.
  intros cloud event t Ho. split.
  { intros He.
    assert (Hh : exists e, authHeaderOf event = Throws e)
      by (destruct He as [-> | ->]; eexists; reflexivity).
    destruct Hh as [e Hh]. exists e. split; [exact Hh|].
    rewrite (resolve_untrusted cloud event t Ho), (bearer_no_event cloud event _ e Hh).
    rewrite <- app_assoc. reflexivity. }
  intros Hu Hn found.
  pose proof (authHeaderOf_every_event event Hu Hn) as Hh. fold found in Hh.
  split; [exact Hh|]. split; [exact (resolve_by_header cloud event t found Ho Hh)|].
  split; [|split; [|split]].
  - intros Hl Hup.
    rewrite (resolve_untrusted cloud event t Ho).
    apply (bearer_absent cloud event _ (VStr "")); [|reflexivity].
    rewrite Hh. unfold found, js_or. rewrite Hl, Hup. reflexivity.
  - intros event' Hu' Hn' Hf. apply resolve_header_only.
    rewrite (authHeaderOf_every_event event' Hu' Hn'), Hf, Hh. reflexivity.
  - intros v. apply resolve_header_only. apply authHeaderOf_two_spellings.
  - intros key v Hk1 Hk2.
    rewrite (resolve_untrusted cloud _ t Ho).
    apply (bearer_absent cloud _ _ (VStr "")); [|reflexivity].
    apply authHeaderOf_other_key; assumption.
Qed.

(** C4 at an event with other properties and a header map that holds the
    header under [AUTHORIZATION] and under [Authorization]: the second is
    the one that is found. *)
Lemma header_key_two_spellings_witness :
  wxOpenid httpCloud = Returns None /\
  requestEvent <> VUndef /\
  requestEvent <> VNull /\
  authHeaderOf requestEvent = Returns (VStr "Bearer tokB") /\
  getUserFromRequest httpCloud requestEvent [] =
    (Returns (Some (User.mk "userB" "userB" None)),
     [CallGetWXContext; CallVerifyAccessToken "tokB"]).
Proof.
  assert (Hu : requestEvent <> VUndef) by discriminate.
  assert (Hn : requestEvent <> VNull) by discriminate.
  split; [reflexivity|]. split; [exact Hu|]. split; [exact Hn|].
  destruct (proj2 (header_key_two_spellings httpCloud requestEvent [] eq_refl) Hu Hn)
    as (Hh & Hrun & _).
  split; [exact Hh | exact Hrun].
Defined.

(** C5, as stated, against the code: the header values [Bearer ] (empty
    token) and [Bearer  abc] (two spaces) are not taken as absent; the
    verifier is consulted, with the tokens [] and [ abc], and an identity
    is resolved when it accepts them. *)
Lemma bearer_pattern_counterexample :
  getUserFromRequest (mkCloud (Returns None) lenientVerifier sampleStore)
                     (headerEvent "authorization" (VStr "Bearer ")) [] =
    (Returns (Some (User.mk "userB" "userB" None)),
     [CallGetWXContext; CallVerifyAccessToken ""]) /\
  getUserFromRequest (mkCloud (Returns None) lenientVerifier sampleStore)
                     (headerEvent "authorization" (VStr "Bearer  abc")) [] =
    (Returns (Some (User.mk "userB" "userB" None)),
     [CallGetWXContext; CallVerifyAccessToken " abc"]).
Proof. split; reflexivity. Qed.

(** C5, amended: without a usable platform context, the first seven
    characters of the header value decide.  A value that does not start
    with [Bearer ] (another scheme, no prefix, or a value that is not
    text, on which [startsWith] raises) is taken as absent: the resolver
    returns [null] and the verifier is not called.  A value that starts
    with [Bearer ] (also with nothing, or with more spaces, after it) has
    the text after those seven characters passed to the verifier, once,
    and the verifier's answer decides: the identity of its result when it
    returns, [null] when it throws. *)
Theorem bearer_prefix_decides :
  forall (cloud : Cloud) (event : jsval) (t : log) (h : jsval),
    wxOpenid cloud = Returns None ->
    authHeaderOf event = Returns h ->
    getUserFromRequest cloud event t =
      match startsWith h "Bearer " with
      | Returns true =>
          match verifyAccessToken cloud (substring_from 7 (str_of h)) with
          | Returns authResult =>
              (Returns (identityOf authResult),
               (t ++ [CallGetWXContext;
                      CallVerifyAccessToken (substring_from 7 (str_of h))])%list)
          | Throws e =>
              (Returns None,
               (t ++ [CallGetWXContext;
                      CallVerifyAccessToken (substring_from 7 (str_of h));
                      ConsoleError "Token 验证失败:" e])%list)
          end
      | Returns false => (Returns None, (t ++ [CallGetWXContext])%list)
      | Throws e =>
          (Returns None,
           (t ++ [CallGetWXContext; ConsoleError "获取用户信息失败:" e])%list)
      end /\
    (startsWith h "Bearer " <> Returns true ->
     exists t',
       getUserFromRequest cloud event t = (Returns None, t') /\
       verifierCalls t' = verifierCalls t) /\
    (startsWith h "Bearer " = Returns true ->
     exists t',
       getUserFromRequest cloud event t =
         (match verifyAccessToken cloud (substring_from 7 (str_of h)) with
          | Returns authResult => Returns (identityOf authResult)
          | Throws _ => Returns None
          end, t') /\
       verifierCalls t' =
         (verifierCalls t ++ [substring_from 7 (str_of h)])%list).
Proof.
  intros cloud event t h Ho Hh.
  pose proof (resolve_by_header cloud event t h Ho Hh) as Hrun.
  split; [exact Hrun|]. rewrite Hrun.
  assert (Hctx : verifierCalls (t ++ [CallGetWXContext])%list = verifierCalls t)
    by (rewrite verifierCalls_app; simpl; apply app_nil_r).
  split.
  - intros Hns.
    destruct (startsWith h "Bearer ") as [[|]|e].
    + contradiction Hns. reflexivity.
    + eexists. split; [reflexivity | exact Hctx].
    + eexists. split; [reflexivity|].
      rewrite verifierCalls_app. simpl. apply app_nil_r.
  - intros Hs. rewrite Hs.
    destruct (verifyAccessToken cloud _) as [ar|e];
      (eexists; split; [reflexivity|]);
      rewrite verifierCalls_app; reflexivity.
Qed.

(** C5 at the header [Token abc], which is taken as absent, and at the
    header [Bearer  abc] with a verifier that accepts the token [ abc]. *)
Lemma bearer_prefix_decides_witness :
  (wxOpenid httpCloud = Returns None /\
   authHeaderOf (headerEvent "Authorization" (VStr "Token abc")) =
     Returns (VStr "Token abc") /\
   getUserFromRequest httpCloud (headerEvent "Authorization" (VStr "Token abc")) [] =
     (Returns None, [CallGetWXContext])) /\
  (wxOpenid (mkCloud (Returns None) lenientVerifier sampleStore) = Returns None /\
   authHeaderOf (headerEvent "authorization" (VStr "Bearer  abc")) =
     Returns (VStr "Bearer  abc") /\
   startsWith (VStr "Bearer  abc") "Bearer " = Returns true /\
   getUserFromRequest (mkCloud (Returns None) lenientVerifier sampleStore)
                      (headerEvent "authorization" (VStr "Bearer  abc")) [] =
     (Returns (Some (User.mk "userB" "userB" None)),
      [CallGetWXContext; CallVerifyAccessToken " abc"])).
Proof.
  split.
  - split; [reflexivity|]. split; [reflexivity|].
    exact (proj1 (bearer_prefix_decides httpCloud
                    (headerEvent "Authorization" (VStr "Token abc")) []
                    (VStr "Token abc") eq_refl eq_refl)).
  - split; [reflexivity|]. split; [reflexivity|]. split; [reflexivity|].
    exact (proj1 (bearer_prefix_decides
                    (mkCloud (Returns None) lenientVerifier sampleStore)
                    (headerEvent "authorization" (VStr "Bearer  abc")) []
                    (VStr "Bearer  abc") eq_refl eq_refl)).
Defined.

(** ** The checker (C3, C6) *)

(** C3: for a subject outside the static list, a query of the store that
    throws is not propagated: the checker completes normally with [false],
    the membership in the static list that line 110 computes again.  When
    the subject is not empty the query was attempted, and its failure is
    on the log. *)
Theorem store_failure_fails_closed :
  forall (cloud : Cloud) (id : string) (t : log) (e : exn),
    includes AUTHORIZED_USERS id = false ->
    queryActive cloud id = Throws e ->
    isUserAuthorized cloud (Some id) t =
      (Returns (VBool false),
       if id =? ""
       then t
       else (t ++ [CallQueryActive id;
                   ConsoleError "查询授权用户失败:" e])%list).
Proof.
  intros cloud id t e Hs Hq.
  destruct (String.eqb_spec id "") as [->|Hne].
  - apply check_missing. reflexivity.
  - rewrite (check_store_fails cloud id t e Hne Hs).
    + rewrite Hs. reflexivity.
    + rewrite Hq. reflexivity.
Qed.

Lemma store_failure_fails_closed_witness :
  includes AUTHORIZED_USERS "userC" = false /\
  brokenStore "userC" = Throws (Thrown (VStr "ETIMEDOUT")) /\
  isUserAuthorized (mkCloud (Returns None) sampleVerifier brokenStore)
                   (Some "userC") [] =
    (Returns (VBool false),
     [CallQueryActive "userC";
      ConsoleError "查询授权用户失败:" (Thrown (VStr "ETIMEDOUT"))]).
Proof.
  split; [reflexivity|]. split; [reflexivity|].
  apply (store_failure_fails_closed
           (mkCloud (Returns None) sampleVerifier brokenStore)
           "userC" [] (Thrown (VStr "ETIMEDOUT")));
    reflexivity.
Defined.

(** C6, at the failing input: the store answers the query for a subject
    outside the static list with a result that carries no [data]; the
    checker returns [undefined], which is not a boolean. *)
Theorem isUserAuthorized_returns_undefined :
  isUserAuthorized (mkCloud (Returns None) sampleVerifier dataLessStore)
                   (Some "userC") [] =
    (Returns VUndef, [CallQueryActive "userC"]) /\
  forall b : bool,
    fst (isUserAuthorized (mkCloud (Returns None) sampleVerifier dataLessStore)
                          (Some "userC") []) <> Returns (VBool b).
Proof.
  split; [reflexivity|]. intros b H. vm_compute in H. discriminate H.
Qed.

(** X1: a missing or empty subject is refused at once: the result is
    [false] and the log is unchanged, so the store is not queried. *)
Theorem empty_subject_refused_without_store :
  forall (cloud : Cloud) (t : log),
    isUserAuthorized cloud None t = (Returns (VBool false), t) /\
    isUserAuthorized cloud (Some "") t = (Returns (VBool false), t).
Proof.
  intros cloud t. split; apply check_missing; reflexivity.
Qed.

(** X2: when the store answers with its [data], the checker returns a
    boolean that is [true] exactly when the subject is on the static list
    or the subject is not empty and the store returned a record; the store
    is queried for a non-empty subject outside the static list only. *)
Theorem store_answer_decides :
  forall (cloud : Cloud) (id : string) (t : log) (docs : list jsval),
    queryActive cloud id = Returns (QResult (Some docs)) ->
    exists t',
      isUserAuthorized cloud (Some id) t =
        (Returns (VBool (includes AUTHORIZED_USERS id
                         || (negb (id =? "") && (0 <? length docs)%nat))), t') /\
      storeCalls t' =
        (storeCalls t ++
         if negb (id =? "") && negb (includes AUTHORIZED_USERS id)
         then [id] else [])%list.
Proof.
  intros cloud id t docs Hq.
  destruct (includes AUTHORIZED_USERS id) eqn:Hs.
  - rewrite (check_static _ _ _ Hs). simpl. rewrite andb_false_r.
    eexists. split; [reflexivity|]. rewrite app_nil_r. reflexivity.
  - destruct (String.eqb_spec id "") as [->|Hne]; simpl.
    + eexists. split; [reflexivity|]. rewrite app_nil_r. reflexivity.
    + rewrite (check_store_answers _ _ _ (Some docs) Hne Hs Hq).
      eexists. split; [reflexivity|]. apply storeCalls_app.
Qed.

Lemma store_answer_decides_witness :
  sampleStore "userB" =
    Returns (QResult (Some [VObj [("openid", VStr "userB"); ("status", VStr "active")]])) /\
  exists t',
    isUserAuthorized httpCloud (Some "userB") [] = (Returns (VBool true), t') /\
    storeCalls t' = ["userB"].
Proof.
  split; [reflexivity|].
  apply (store_answer_decides httpCloud "userB" []
           [VObj [("openid", VStr "userB"); ("status", VStr "active")]]).
  reflexivity.
Defined.

(** ** The gate (C1, C2, C7, C10) *)

(** C1, as stated, against the code: for a resolved subject that the
    checker rejects the verdict does not carry the fixed reason
    "subject not on authorized list", and for an unresolved caller it does
    not carry "identity could not be established". *)
Lemma checkAuthorization_reasons_counterexample :
  (getUserFromRequest (wxCloud "userC") bareEvent [] =
     (Returns (Some (User.mk "userC" "userC" (Some "wxapp"))), [CallGetWXContext])
   /\ isUserAuthorized (wxCloud "userC") (Some "userC") [CallGetWXContext] =
        (Returns (VBool false), [CallGetWXContext; CallQueryActive "userC"])
   /\ fst (checkAuthorization (wxCloud "userC") bareEvent []) <>
        Returns (mkVerdict false
                   (Some (User.mk "userC" "userC" (Some "wxapp")))
                   (Some "subject not on authorized list")))
  /\
  (getUserFromRequest httpCloud bareEvent [] = (Returns None, [CallGetWXContext])
   /\ fst (checkAuthorization httpCloud bareEvent []) <>
        Returns (mkVerdict false None (Some "identity could not be established"))).
Proof.
  repeat split; try reflexivity; vm_compute; intros H; discriminate H.
Qed.

(** C1, amended: every run of the gate completes with exactly one of
    three verdicts.  No identity resolved: not authorized, no user, the
    fixed message [msgNoIdentity].  Identity resolved and the checker's
    answer falsy: not authorized, the user, and the message
    [msgNotAuthorized] built from the user's openid.  Otherwise:
    authorized, the user, no error. *)
Theorem checkAuthorization_three_verdicts :
  forall (cloud : Cloud) (event : jsval) (t : log),
  exists (r : option User.t) (t1 : log),
    getUserFromRequest cloud event t = (Returns r, t1) /\
    match r with
    | None =>
        checkAuthorization cloud event t =
          (Returns (mkVerdict false None (Some msgNoIdentity)), t1)
    | Some u =>
        exists (a : jsval) (t2 : log),
          isUserAuthorized cloud (Some (User.openid u)) t1 = (Returns a, t2) /\
          checkAuthorization cloud event t =
            (Returns (if truthy a
                      then mkVerdict true (Some u) None
                      else mkVerdict false (Some u)
                             (Some (msgNotAuthorized (User.openid u)))),
             t2)
    end.
Proof.
  intros cloud event t.
  destruct (gate_cases cloud event t) as (r & t1 & Hr & _ & Hcases).
  exists r, t1. split; assumption.
Qed.

(** C2: every run of the gate completes with a verdict that is never
    authorized with a null user; a verdict that is not authorized carries
    a non-null error; an authorized verdict carries a null error and a
    non-null user. *)
Theorem verdict_invariant :
  forall (cloud : Cloud) (event : jsval) (t : log),
  exists (v : Verdict) (t' : log),
    checkAuthorization cloud event t = (Returns v, t') /\
    ~ (authorized v = true /\ user v = None) /\
    (authorized v = false -> error v <> None) /\
    (authorized v = true -> error v = None /\ user v <> None).
Proof.
  intros cloud event t.
  destruct (gate_cases cloud event t) as (r & t1 & _ & _ & Hcases).
  destruct r as [u|].
  - destruct Hcases as (a & t2 & _ & Hrun). rewrite Hrun.
    do 2 eexists. split; [reflexivity|].
    destruct (truthy a); simpl.
    + split; [intros [_ H]; discriminate|].
      split; [intros H; discriminate | intros _; split; [reflexivity | discriminate]].
    + split; [intros [H _]; discriminate|].
      split; [intros _; discriminate | intros H; discriminate].
  - rewrite Hcases. do 2 eexists. split; [reflexivity|]. simpl.
    split; [intros [H _]; discriminate|].
    split; [intros _; discriminate | intros H; discriminate].
Qed.

(** C7: without a usable platform context, an event whose authorization
    header is [Bearer <token>] with a token the verifier rejects gets the
    same verdict as an event that has no authorization header: not
    authorized, no user, the message of the unresolved identity. *)
Theorem rejected_token_same_verdict_as_no_header :
  forall (cloud : Cloud) (event event' : jsval) (t : log)
         (token : string) (e : exn),
    wxOpenid cloud = Returns None ->
    authHeaderOf event = Returns (VStr ("Bearer " ++ token)) ->
    verifyAccessToken cloud token = Throws e ->
    authHeaderOf event' = Returns (VStr "") ->
    fst (checkAuthorization cloud event t) = fst (checkAuthorization cloud event' t) /\
    fst (checkAuthorization cloud event' t) =
      Returns (mkVerdict false None (Some msgNoIdentity)).
Proof.
  intros cloud event event' t token e Ho Hh Hv Hh'.
  assert (H1 : fst (checkAuthorization cloud event t) =
               Returns (mkVerdict false None (Some msgNoIdentity))).
  { erewrite gate_unresolved; [reflexivity|].
    rewrite (resolve_untrusted cloud event t Ho).
    apply (bearer_rejected cloud event _ token e Hh Hv). }
  assert (H2 : fst (checkAuthorization cloud event' t) =
               Returns (mkVerdict false None (Some msgNoIdentity))).
  { erewrite gate_unresolved; [reflexivity|].
    rewrite (resolve_untrusted cloud event' t Ho).
    apply (bearer_absent cloud event' _ (VStr "") Hh'). reflexivity. }
  rewrite H1, H2. split; reflexivity.
Qed.

Lemma rejected_token_same_verdict_as_no_header_witness :
  wxOpenid httpCloud = Returns None /\
  authHeaderOf (headerEvent "Authorization" (VStr "Bearer expired")) =
    Returns (VStr ("Bearer " ++ "expired")) /\
  verifyAccessToken httpCloud "expired" = Throws (Thrown (VStr "invalid token")) /\
  authHeaderOf bareEvent = Returns (VStr "") /\
  fst (checkAuthorization httpCloud
         (headerEvent "Authorization" (VStr "Bearer expired")) []) =
    fst (checkAuthorization httpCloud bareEvent []) /\
  fst (checkAuthorization httpCloud bareEvent []) =
    Returns (mkVerdict false None (Some msgNoIdentity)).
Proof.
  repeat (split; [reflexivity|]).
  apply (rejected_token_same_verdict_as_no_header httpCloud
           (headerEvent "Authorization" (VStr "Bearer expired")) bareEvent []
           "expired" (Thrown (VStr "invalid token")));
    reflexivity.
Defined.



(** ** Runs *)

(** A member of the static list calling through the platform transport
    is authorized without a query of the store. *)
Example run_static_member :
  checkAuthorization (wxCloud "oXXXXX1") bareEvent [] =
    (Returns (mkVerdict true (Some (User.mk "oXXXXX1" "oXXXXX1" (Some "wxapp"))) None),
     [CallGetWXContext]).
Proof. reflexivity. Qed.

(** A bearer token of a subject with an active record is authorized
    through the store. *)
Example run_bearer_active_record :
  checkAuthorization httpCloud (headerEvent "Authorization" (VStr "Bearer tokB")) [] =
    (Returns (mkVerdict true (Some (User.mk "userB" "userB" None)) None),
     [CallGetWXContext; CallVerifyAccessToken "tokB"; CallQueryActive "userB"]).
Proof. reflexivity. Qed.

(** A bearer token of a subject without a record is refused by name. *)
Example run_bearer_no_record :
  checkAuthorization httpCloud (headerEvent "authorization" (VStr "Bearer tokC")) [] =
    (Returns (mkVerdict false (Some (User.mk "userC" "uidC" None))
                (Some "用户 userC 未授权访问此应用")),
     [CallGetWXContext; CallVerifyAccessToken "tokC"; CallQueryActive "userC"]).
Proof. reflexivity. Qed.

(** Another scheme in the header: no identity. *)
Example run_other_scheme :
  checkAuthorization httpCloud (headerEvent "Authorization" (VStr "Token abc")) [] =
    (Returns (mkVerdict false None (Some msgNoIdentity)), [CallGetWXContext]).
Proof. reflexivity. Qed.

(** The context accessor throws: the resolver logs and yields [null],
    whatever the event carries. *)
Example run_context_throws :
  getUserFromRequest
    (mkCloud (Throws (Thrown (VStr "no context"))) lenientVerifier brokenStore)
    (headerEvent "authorization" (VStr "Bearer tokB")) [] =
    (Returns None,
     [CallGetWXContext;
      ConsoleError "获取用户信息失败:" (Thrown (VStr "no context"))]).
Proof. reflexivity. Qed.

(** A header value that is not text (a header given twice arrives as an
    array): [startsWith] raises, the outer handler logs and yields [null]. *)
Example run_header_not_text :
  getUserFromRequest httpCloud (headerEvent "authorization" (VArr [VStr "Bearer tokB"])) [] =
    (Returns None,
     [CallGetWXContext;
      ConsoleError "获取用户信息失败:"
        (TypeError "authHeader.startsWith is not a function")]).
Proof. reflexivity. Qed.

(** The store resolves to nothing at all: reading [.data] raises, the
    handler of line 107 logs and answers from the static list. *)
Example run_store_resolves_undefined :
  isUserAuthorized (mkCloud (Returns None) sampleVerifier (fun _ => Returns QUndefined))
                   (Some "userC") [] =
    (Returns (VBool false),
     [CallQueryActive "userC";
      ConsoleError "查询授权用户失败:"
        (TypeError "Cannot read properties of undefined (reading 'data')")]).
Proof. reflexivity. Qed.

(** * Further properties *)

(** ** The log only grows *)

Lemma appends_ret {A} (a : A) : appends (ret a).
Proof. intros t. unfold ret. simpl. rewrite app_nil_r. reflexivity. Qed.

Lemma appends_lift {A} (r : outcome A) : appends (lift r).
Proof. intros t. unfold lift. simpl. rewrite app_nil_r. reflexivity. Qed.

Lemma appends_perform {A} (ev : effect) (r : outcome A) : appends (perform ev r).
Proof. intros t. reflexivity. Qed.

Lemma appends_bind {A B} (m : M A) (k : A -> M B) :
  appends m -> (forall a, appends (k a)) -> appends (bind m k).
Proof.
  intros Hm Hk t. unfold bind. rewrite (Hm t).
  destruct (m []) as [[a|e] l1]; simpl.
  - rewrite (Hk a (t ++ l1)%list), (Hk a l1). simpl.
    rewrite app_assoc. reflexivity.
  - reflexivity.
Qed.

Lemma appends_try_catch {A} (body : M A) (handler : exn -> M A) :
  appends body -> (forall e, appends (handler e)) -> appends (try_catch body handler).
Proof.
  intros Hm Hk t. unfold try_catch. rewrite (Hm t).
  destruct (body []) as [[a|e] l1]; simpl.
  - reflexivity.
  - rewrite (Hk e (t ++ l1)%list), (Hk e l1). simpl.
    rewrite app_assoc. reflexivity.
Qed.

Ltac appends_step :=
  first [ apply appends_ret
        | apply appends_lift
        | apply appends_perform
        | apply appends_bind; [| intros ?]
        | apply appends_try_catch; [| intros ?]
        | match goal with
          | |- appends (match ?x with _ => _ end) => destruct x
          | |- appends (if ?b then _ else _) => destruct b
          end ].

Lemma appends_getUserFromRequest (cloud : Cloud) (event : jsval) :
  appends (getUserFromRequest cloud event).
Proof.
  unfold getUserFromRequest, verifyBearer, onResolveError, console_error.
  repeat appends_step.
Qed.

Lemma appends_isUserAuthorized (cloud : Cloud) (openid : option string) :
  appends (isUserAuthorized cloud openid).
Proof.
  unfold isUserAuthorized, console_error. repeat appends_step.
Qed.

Lemma appends_checkAuthorization (cloud : Cloud) (event : jsval) :
  appends (checkAuthorization cloud event).
Proof.
  unfold checkAuthorization.
  apply appends_bind; [apply appends_getUserFromRequest | intros r].
  destruct r as [u|]; [|apply appends_ret].
  destruct (truthyText _); [|apply appends_ret].
  apply appends_bind; [apply appends_isUserAuthorized | intros a].
  destruct (negb (truthy a)); apply appends_ret.
Qed.

Lemma errorsLogged_app (t1 t2 : log) :
  errorsLogged (t1 ++ t2)%list = errorsLogged t1 + errorsLogged t2.
Proof. unfold errorsLogged. rewrite filter_app, length_app. reflexivity. Qed.

Lemma contextReads_app (t1 t2 : log) :
  contextReads (t1 ++ t2)%list = contextReads t1 + contextReads t2.
Proof. unfold contextReads. rewrite filter_app, length_app. reflexivity. Qed.

(** ** The checker under every behaviour of the store *)

(** What the checker's answer tests as. *)
Lemma check_decision :
  forall (cloud : Cloud) (id : string) (t : log),
  exists (a : jsval) (t' : log),
    isUserAuthorized cloud (Some id) t = (Returns a, t') /\
    truthy a =
      negb (id =? "")
      && (includes AUTHORIZED_USERS id || storeHasRecord (queryActive cloud id)).
Proof.
  intros cloud id t.
  destruct (String.eqb_spec id "") as [->|Hne].
  - rewrite (check_missing cloud (Some "") t eq_refl). eauto.
  - destruct (includes AUTHORIZED_USERS id) eqn:Hs.
    + rewrite (check_static cloud id t Hs). eauto.
    + destruct (storeFailure (queryActive cloud id)) as [e|] eqn:Hq.
      * rewrite (check_store_fails cloud id t e Hne Hs Hq), Hs.
        do 2 eexists. split; [reflexivity|]. simpl.
        destruct (queryActive cloud id) as [[|d]|e']; simpl in *;
          try reflexivity; discriminate.
      * destruct (queryActive cloud id) as [[|d]|e'] eqn:Hq';
          simpl in Hq; try discriminate.
        rewrite (check_store_answers cloud id t d Hne Hs Hq').
        do 2 eexists. split; [reflexivity|].
        destruct d as [docs|]; simpl; [|reflexivity].
        destruct (0 <? length docs)%nat; reflexivity.
Qed.

(** What the checker adds to the log. *)
Lemma check_log :
  forall (cloud : Cloud) (id : string) (t : log),
  exists (a : jsval) (l : log),
    isUserAuthorized cloud (Some id) t = (Returns a, (t ++ l)%list) /\
    verifierCalls l = [] /\
    contextReads l = 0 /\
    storeCalls l =
      (if negb (id =? "") && negb (includes AUTHORIZED_USERS id)
       then [id] else []) /\
    errorsLogged l =
      (if negb (id =? "") && negb (includes AUTHORIZED_USERS id)
       then match storeFailure (queryActive cloud id) with
            | Some _ => 1
            | None => 0
            end
       else 0).
Proof.
  intros cloud id t.
  destruct (String.eqb_spec id "") as [->|Hne].
  - rewrite (check_missing cloud (Some "") t eq_refl).
    exists (VBool false), []. rewrite app_nil_r. repeat split.
  - destruct (includes AUTHORIZED_USERS id) eqn:Hs.
    + rewrite (check_static cloud id t Hs).
      exists (VBool true), []. rewrite app_nil_r. repeat split.
    + destruct (storeFailure (queryActive cloud id)) as [e|] eqn:Hq.
      * rewrite (check_store_fails cloud id t e Hne Hs Hq).
        do 2 eexists. split; [reflexivity|]. repeat split.
      * destruct (queryActive cloud id) as [[|d]|e'] eqn:Hq';
          simpl in Hq; try discriminate.
        rewrite (check_store_answers cloud id t d Hne Hs Hq').
        do 2 eexists. split; [reflexivity|]. repeat split.
Qed.

(** X3: the checker's answer is truthy exactly when the subject is not
    empty and is on the static list or the store answered the query with
    at least one record.  A store that throws, resolves to nothing, or
    answers without [data] or with no record never authorizes. *)
Theorem isUserAuthorized_decision :
  forall (cloud : Cloud) (id : string) (t : log),
  exists (a : jsval) (t' : log),
    isUserAuthorized cloud (Some id) t = (Returns a, t') /\
    truthy a =
      negb (id =? "")
      && (includes AUTHORIZED_USERS id || storeHasRecord (queryActive cloud id)).
Proof.
  intros cloud id t.
  destruct (check_decision cloud id t) as (a & t' & Hrun & Ha).
  exists a, t'. split; assumption.
Qed.

(** X4: the checker logs an error exactly when it went to the store and
    the query failed (a throw, or a resolution to nothing): a refusal
    after a failed query differs on the log from a refusal after a clean
    answer.  The store is queried at most once, for the subject itself,
    and only for a non-empty subject outside the static list. *)
Theorem isUserAuthorized_degraded_mode_is_logged :
  forall (cloud : Cloud) (id : string) (t : log),
  exists (a : jsval) (l : log),
    isUserAuthorized cloud (Some id) t = (Returns a, (t ++ l)%list) /\
    storeCalls l =
      (if negb (id =? "") && negb (includes AUTHORIZED_USERS id)
       then [id] else []) /\
    errorsLogged l =
      (if negb (id =? "") && negb (includes AUTHORIZED_USERS id)
       then match storeFailure (queryActive cloud id) with
            | Some _ => 1
            | None => 0
            end
       else 0).
Proof.
  intros cloud id t.
  destruct (check_log cloud id t) as (a & l & Hrun & _ & _ & Hs & He).
  exists a, l. repeat split; assumption.
Qed.

(** ** The resolver, further *)

(** What the resolver adds to the log: the read of the context first,
    then at most one call of the verifier, and no query of the store. *)
Lemma resolve_log (cloud : Cloud) (event : jsval) (t : log) :
  exists (r : option User.t) (l : log),
    getUserFromRequest cloud event t =
      (Returns r, (t ++ CallGetWXContext :: l)%list) /\
    wellFormed r /\
    contextReads l = 0 /\
    storeCalls l = [] /\
    length (verifierCalls l) <= 1.
Proof.
  rewrite (appends_getUserFromRequest cloud event t).
  destruct (resolve_total cloud event []) as (r & t' & Hrun & Hwf).
  rewrite Hrun. simpl. exists r.
  revert Hrun. unfold getUserFromRequest, verifyBearer. run_monad.
  destruct (getWXContext cloud) as [[ctx|]|e]; simpl;
    try destruct (truthyText (OPENID ctx)); simpl;
    try (destruct (authHeaderOf event) as [h|e']; simpl;
         [destruct (startsWith h "Bearer ") as [[|]|e'']; simpl;
          [destruct (verifyAccessToken cloud _) as [[ar|]|e3]; simpl;
           [destruct (truthyText (AuthResult.openid ar)); simpl | | ] | | ] | ]);
    intros Hrun; injection Hrun as _ <-;
    eexists; (split; [reflexivity|]); repeat split; simpl; auto.
Qed.

(** X5: the bearer path when the verifier answers.  Without a usable
    platform context and with the header [Bearer <token>], the verifier is
    called once, with [<token>], and nothing is logged as an error; an
    identity comes back exactly when the verifier's result carries a
    non-empty [openid], which becomes the identity's [openid]; its [uid] is
    the result's [uid] when that is non-empty and the [openid] otherwise. *)
Theorem bearer_token_resolution :
  forall (cloud : Cloud) (event : jsval) (t : log) (token : string)
         (authResult : option AuthResult.t),
    wxOpenid cloud = Returns None ->
    authHeaderOf event = Returns (VStr ("Bearer " ++ token)) ->
    verifyAccessToken cloud token = Returns authResult ->
    exists r : option User.t,
      getUserFromRequest cloud event t =
        (Returns r, (t ++ [CallGetWXContext; CallVerifyAccessToken token])%list) /\
      (r = None <->
       forall ar, authResult = Some ar -> truthyText (AuthResult.openid ar) = None) /\
      (forall u, r = Some u ->
         exists ar,
           authResult = Some ar /\
           AuthResult.openid ar = Some (User.openid u) /\
           User.appid u = AuthResult.appid ar /\
           (truthyText (AuthResult.uid ar) = Some (User.uid u) \/
            truthyText (AuthResult.uid ar) = None /\ User.uid u = User.openid u)).
Proof.
  intros cloud event t token authResult Ho Hh Hv.
  rewrite (resolve_untrusted cloud event t Ho).
  unfold bearerPath, verifyBearer. run_monad. rewrite Hh. simpl.
  replace (prefix "" token) with true by (destruct token; reflexivity).
  rewrite Hv. rewrite <- app_assoc. simpl.
  destruct authResult as [ar|].
  - destruct (truthyText (AuthResult.openid ar)) as [id|] eqn:Hid.
    + eexists. split; [reflexivity|]. split.
      * split; [discriminate|]. intros H. specialize (H ar eq_refl). congruence.
      * intros u Hu. injection Hu as <-. exists ar. simpl.
        destruct (truthyText_Some _ _ Hid) as [-> _].
        repeat split.
        destruct (truthyText (AuthResult.uid ar)); auto.
    + eexists. split; [reflexivity|]. split.
      * split; [|reflexivity]. intros _ ar' Har. injection Har as <-. assumption.
      * intros u Hu. discriminate Hu.
  - eexists. split; [reflexivity|]. split.
    + split; [|reflexivity]. intros _ ar' Har. discriminate Har.
    + intros u Hu. discriminate Hu.
Qed.

Lemma bearer_token_resolution_witness :
  wxOpenid httpCloud = Returns None /\
  authHeaderOf (headerEvent "authorization" (VStr "Bearer tokC")) =
    Returns (VStr ("Bearer " ++ "tokC")) /\
  verifyAccessToken httpCloud "tokC" =
    Returns (Some (AuthResult.mk (Some "userC") (Some "uidC") None)) /\
  exists r : option User.t,
    getUserFromRequest httpCloud (headerEvent "authorization" (VStr "Bearer tokC")) [] =
      (Returns r, ([] ++ [CallGetWXContext; CallVerifyAccessToken "tokC"])%list) /\
    (r = None <->
     forall ar, Some (AuthResult.mk (Some "userC") (Some "uidC") None) = Some ar ->
                truthyText (AuthResult.openid ar) = None) /\
    (forall u, r = Some u ->
       exists ar,
         Some (AuthResult.mk (Some "userC") (Some "uidC") None) = Some ar /\
         AuthResult.openid ar = Some (User.openid u) /\
         User.appid u = AuthResult.appid ar /\
         (truthyText (AuthResult.uid ar) = Some (User.uid u) \/
          truthyText (AuthResult.uid ar) = None /\ User.uid u = User.openid u)).
Proof.
  split; [reflexivity|]. split; [reflexivity|]. split; [reflexivity|].
  apply (bearer_token_resolution httpCloud
           (headerEvent "authorization" (VStr "Bearer tokC")) [] "tokC"
           (Some (AuthResult.mk (Some "userC") (Some "uidC") None)));
    reflexivity.
Defined.

(** X6: events without a header map.  Without a usable platform context,
    an event that is there but whose [headers] is not an object (missing,
    [null], a boolean, a number, a string, an array) resolves to [null]
    with nothing done but the read of the context; an event that is
    [undefined] or [null] resolves to [null] too, with the [TypeError] of
    reading [headers] off it on the log.  The verifier is called in
    neither case. *)
Theorem resolve_without_header_map :
  forall (cloud : Cloud) (event : jsval) (t : log),
    wxOpenid cloud = Returns None ->
    (forall hs, get_prop event "headers" <> Returns (VObj hs)) ->
    exists l : log,
      getUserFromRequest cloud event t =
        (Returns None, (t ++ CallGetWXContext :: l)%list) /\
      verifierCalls l = [] /\
      (l = [] <-> event <> VUndef /\ event <> VNull).
Proof.
  intros cloud event t Ho Hhs.
  rewrite (resolve_untrusted cloud event t Ho).
  destruct (get_prop event "headers") as [hs|e] eqn:Hg.
  - assert (Hne : event <> VUndef /\ event <> VNull)
      by (split; intros ->; discriminate Hg).
    assert (Hh : authHeaderOf event = Returns (VStr "")).
    { unfold authHeaderOf. rewrite Hg.
      destruct hs as [| |b|n|s|elems|fields]; try reflexivity.
      - destruct b; reflexivity.
      - unfold js_or. simpl. destruct (n =? 0)%Z; reflexivity.
      - unfold js_or. simpl. destruct (s =? ""); reflexivity.
      - destruct (Hhs fields eq_refl). }
    rewrite (bearer_absent cloud event _ (VStr "") Hh eq_refl).
    exists []. split; [reflexivity|]. split; [reflexivity|]. tauto.
  - assert (Hh : authHeaderOf event = Throws e)
      by (unfold authHeaderOf; rewrite Hg; reflexivity).
    rewrite (bearer_no_event cloud event _ e Hh). rewrite <- app_assoc.
    eexists. split; [reflexivity|]. split; [reflexivity|].
    split; [discriminate|].
    intros [H1 H2]. destruct event; simpl in Hg; try discriminate; congruence.
Qed.

Lemma resolve_without_header_map_witness :
  wxOpenid httpCloud = Returns None /\
  (forall hs, get_prop (VObj [("headers", VStr "authorization: Bearer tokB")]) "headers"
              <> Returns (VObj hs)) /\
  exists l : log,
    getUserFromRequest httpCloud
      (VObj [("headers", VStr "authorization: Bearer tokB")]) [] =
      (Returns None, ([] ++ CallGetWXContext :: l)%list) /\
    verifierCalls l = [] /\
    (l = [] <-> VObj [("headers", VStr "authorization: Bearer tokB")] <> VUndef /\
                VObj [("headers", VStr "authorization: Bearer tokB")] <> VNull).
Proof.
  split; [reflexivity|].
  assert (H : forall hs,
             get_prop (VObj [("headers", VStr "authorization: Bearer tokB")]) "headers"
             <> Returns (VObj hs)) by (intros hs; discriminate).
  split; [exact H|].
  apply (resolve_without_header_map httpCloud
           (VObj [("headers", VStr "authorization: Bearer tokB")]) []
           eq_refl H).
Defined.

(** ** The gate, further *)

(** What the gate adds to the log, and what its verdict rests on. *)
Lemma gate_log (cloud : Cloud) (event : jsval) (t : log) :
  exists (r : option User.t) (v : Verdict) (l1 l2 : log),
    getUserFromRequest cloud event t =
      (Returns r, (t ++ CallGetWXContext :: l1)%list) /\
    checkAuthorization cloud event t =
      (Returns v, (t ++ CallGetWXContext :: l1 ++ l2)%list) /\
    wellFormed r /\
    contextReads l1 = 0 /\ storeCalls l1 = [] /\ length (verifierCalls l1) <= 1 /\
    contextReads l2 = 0 /\ verifierCalls l2 = [] /\
    match r with
    | None =>
        v = mkVerdict false None (Some msgNoIdentity) /\ l2 = []
    | Some u =>
        user v = Some u /\
        authorized v =
          includes AUTHORIZED_USERS (User.openid u)
          || storeHasRecord (queryActive cloud (User.openid u)) /\
        error v = (if authorized v then None
                   else Some (msgNotAuthorized (User.openid u))) /\
        storeCalls l2 =
          (if includes AUTHORIZED_USERS (User.openid u) then []
           else [User.openid u])
    end.
Proof.
  destruct (resolve_log cloud event t) as (r & l1 & Hr & Hwf & Hc1 & Hs1 & Hv1).
  exists r. destruct r as [u|].
  - destruct Hwf as [Hne Hne'].
    assert (Hnb : negb (User.openid u =? "") = true)
      by (destruct (String.eqb_spec (User.openid u) ""); [contradiction | reflexivity]).
    destruct (check_log cloud (User.openid u) (t ++ CallGetWXContext :: l1)%list)
      as (a & l2 & Ha & Hv2 & Hc2 & Hs2 & _).
    destruct (check_decision cloud (User.openid u) (t ++ CallGetWXContext :: l1)%list)
      as (a' & t' & Ha' & Hdec).
    rewrite Ha in Ha'. injection Ha' as <- _.
    rewrite Hnb, andb_true_l in Hdec. rewrite Hnb, andb_true_l in Hs2.
    pose proof (gate_resolved cloud event t _ _ u a Hr Hne Ha) as Hg.
    rewrite <- app_assoc in Hg. simpl in Hg.
    eexists. exists l1, l2. split; [exact Hr|]. split; [exact Hg|].
    split; [split; assumption|].
    repeat (split; [assumption|]).
    rewrite <- Hdec, Hs2.
    assert (Hcalls : (if negb (includes AUTHORIZED_USERS (User.openid u))
                      then [User.openid u] else []) =
                     (if includes AUTHORIZED_USERS (User.openid u)
                      then [] else [User.openid u]))
      by (destruct (includes AUTHORIZED_USERS (User.openid u)); reflexivity).
    destruct (truthy a); simpl; repeat split; exact Hcalls.
  - pose proof (gate_unresolved cloud event t _ Hr) as Hg.
    eexists. exists l1, []. rewrite app_nil_r.
    split; [exact Hr|]. split; [exact Hg|]. repeat split; assumption.
Qed.

(** X7: the effects of one invocation of the gate.  Every run completes,
    having read the platform context exactly once, first; called the token
    verifier at most once; and queried the store at most once, only after
    an identity was resolved and only about that identity's [openid].  With
    no identity resolved the store is not queried. *)
Theorem checkAuthorization_effects :
  forall (cloud : Cloud) (event : jsval) (t : log),
  exists (v : Verdict) (l : log),
    checkAuthorization cloud event t =
      (Returns v, (t ++ CallGetWXContext :: l)%list) /\
    contextReads l = 0 /\
    length (verifierCalls l) <= 1 /\
    (storeCalls l = [] \/
     exists u, user v = Some u /\ storeCalls l = [User.openid u]) /\
    (user v = None -> storeCalls l = []).
Proof.
  intros cloud event t.
  destruct (gate_log cloud event t)
    as (r & v & l1 & l2 & _ & Hg & _ & Hc1 & Hs1 & Hv1 & Hc2 & Hv2 & Hcase).
  exists v, (l1 ++ l2)%list. split; [exact Hg|].
  rewrite contextReads_app, verifierCalls_app, storeCalls_app, Hc1, Hc2, Hs1, Hv2.
  rewrite app_nil_r. simpl.
  split; [reflexivity|]. split; [assumption|].
  destruct r as [u|].
  - destruct Hcase as (Hu & _ & _ & Hs2). rewrite Hs2, Hu.
    split; [|discriminate].
    destruct (includes AUTHORIZED_USERS (User.openid u)); [left | right]; eauto.
  - destruct Hcase as [-> ->]. auto.
Qed.

(** X8: what the verdict rests on.  Every run of the gate completes, and
    it authorizes exactly when the resolver produced an identity whose
    [openid] is on the static list or has a record in the store; the
    verdict then carries that identity and no error.  Every other verdict
    carries an error. *)
Theorem checkAuthorization_decision :
  forall (cloud : Cloud) (event : jsval) (t : log),
  exists (r : option User.t) (t1 : log) (v : Verdict) (t2 : log),
    getUserFromRequest cloud event t = (Returns r, t1) /\
    checkAuthorization cloud event t = (Returns v, t2) /\
    authorized v =
      match r with
      | Some u => includes AUTHORIZED_USERS (User.openid u)
                  || storeHasRecord (queryActive cloud (User.openid u))
      | None => false
      end /\
    (if authorized v then user v = r /\ error v = None
     else exists msg, error v = Some msg /\ msg <> "").
Proof.
  intros cloud event t.
  destruct (gate_log cloud event t)
    as (r & v & l1 & l2 & Hr & Hg & _ & _ & _ & _ & _ & _ & Hcase).
  exists r. do 3 eexists. split; [exact Hr|]. split; [exact Hg|].
  destruct r as [u|].
  - destruct Hcase as (Hu & Ha & He & _). split; [exact Ha|].
    rewrite He. destruct (authorized v).
    + split; [assumption | reflexivity].
    + eexists. split; [reflexivity|]. discriminate.
  - destruct Hcase as [-> _]. simpl. split; [reflexivity|].
    eexists. split; [reflexivity|]. discriminate.
Qed.

(** X9: a caller on the static list who comes through the platform's own
    transport is authorized whatever the event holds and whatever the
    token verifier and the store do: the read of the context is the only
    effect, so the verdict needs no network call. *)
Theorem trusted_static_caller_is_authorized :
  forall (cloud : Cloud) (event : jsval) (t : log) (ctx : WXContext) (id : string),
    getWXContext cloud = Returns (Some ctx) ->
    OPENID ctx = Some id ->
    includes AUTHORIZED_USERS id = true ->
    checkAuthorization cloud event t =
      (Returns (mkVerdict true (Some (User.mk id id (APPID ctx))) None),
       (t ++ [CallGetWXContext])%list).
Proof.
  intros cloud event t ctx id Hw Ho Hs.
  pose proof (includes_nonempty id Hs) as Hne.
  assert (Hto : truthyText (OPENID ctx) = Some id)
    by (rewrite Ho; apply truthyText_nonempty; assumption).
  pose proof (resolve_trusted cloud event t ctx id Hw Hto) as Hr.
  pose proof (check_static cloud id (t ++ [CallGetWXContext])%list Hs) as Hc.
  apply (gate_resolved cloud event t _ _ (User.mk id id (APPID ctx)) (VBool true) Hr Hne Hc).
Qed.

Lemma trusted_static_caller_is_authorized_witness :
  getWXContext (mkCloud (Returns (Some (mkWXContext (Some "oXXXXX2") None)))
                        sampleVerifier brokenStore) =
    Returns (Some (mkWXContext (Some "oXXXXX2") None)) /\
  includes AUTHORIZED_USERS "oXXXXX2" = true /\
  checkAuthorization (mkCloud (Returns (Some (mkWXContext (Some "oXXXXX2") None)))
                              sampleVerifier brokenStore)
                     (headerEvent "authorization" (VStr "Bearer tokC")) [] =
    (Returns (mkVerdict true (Some (User.mk "oXXXXX2" "oXXXXX2" None)) None),
     [CallGetWXContext]).
Proof.
  split; [reflexivity|]. split; [reflexivity|].
  apply (trusted_static_caller_is_authorized
           (mkCloud (Returns (Some (mkWXContext (Some "oXXXXX2") None)))
                    sampleVerifier brokenStore)
           (headerEvent "authorization" (VStr "Bearer tokC")) []
           (mkWXContext (Some "oXXXXX2") None) "oXXXXX2");
    reflexivity.
Defined.

(** ** The handler [exports.main] *)

Ltac run_handler :=
  unfold main, run_gate, hbind, hret, hlift, hperform, htry_catch.

Lemma tracksCalls_app (t1 t2 : list main_effect) :
  tracksCalls (t1 ++ t2)%list = tracksCalls t1 + tracksCalls t2.
Proof. unfold tracksCalls. rewrite filter_app, length_app. reflexivity. Qed.

Lemma tracksCalls_Auth (l : log) : tracksCalls (map Auth l) = 0.
Proof. induction l as [|ev l IH]; [reflexivity | exact IH]. Qed.

Lemma msgNotAuthorized_nonempty (id : string) : msgNotAuthorized id <> "".
Proof. unfold msgNotAuthorized. simpl. discriminate. Qed.

(** The verdict of a run from the empty log: an authorized verdict
    carries a user with a non-empty [openid], a refusal a non-empty error. *)
Lemma gate_verdict (cloud : Cloud) (event : jsval) :
  exists (v : Verdict) (l : log),
    checkAuthorization cloud event [] = (Returns v, l) /\
    (if authorized v
     then exists u, user v = Some u /\ User.openid u <> ""
     else exists msg, error v = Some msg /\ truthyText (Some msg) = Some msg).
Proof.
  destruct (gate_log cloud event [])
    as (r & v & l1 & l2 & _ & Hg & Hwf & _ & _ & _ & _ & _ & Hcase).
  exists v. eexists. split; [exact Hg|].
  destruct r as [u|].
  - destruct Hcase as (Hu & _ & He & _). destruct Hwf as [Hne _].
    rewrite He. destruct (authorized v).
    + exists u. split; assumption.
    + eexists. split; [reflexivity|].
      apply truthyText_nonempty, msgNotAuthorized_nonempty.
  - destruct Hcase as [-> _]. simpl. eexists. split; reflexivity.
Qed.

(** Lines 156-162. *)
Lemma main_refused (cloud : Cloud) (tracksGet : outcome query_result)
      (event context : jsval) (t : list main_effect)
      (v : Verdict) (l : log) (msg : string) :
  checkAuthorization cloud event [] = (Returns v, l) ->
  authorized v = false ->
  error v = Some msg ->
  truthyText (Some msg) = Some msg ->
  main cloud tracksGet event context t =
    (Returns (mkResponse 403 (VStr msg) VNull), (t ++ map Auth l)%list).
Proof.
  intros Hg Ha He Hm. run_handler. rewrite Hg, Ha, He, Hm. reflexivity.
Qed.

(** Lines 165-180: the query of [tracks] answers. *)
Lemma main_served (cloud : Cloud) (tracksGet : outcome query_result)
      (event context : jsval) (t : list main_effect)
      (v : Verdict) (l : log) (u : User.t) (d : option (list jsval)) :
  checkAuthorization cloud event [] = (Returns v, l) ->
  authorized v = true ->
  user v = Some u ->
  tracksGet = Returns (QResult d) ->
  main cloud tracksGet event context t =
    (Returns (mkResponse 0 (VStr "success")
                match d with Some docs => VArr docs | None => VUndef end),
     (t ++ map Auth l
        ++ [ConsoleLog ("授权用户 " ++ User.openid u ++ " 正在访问 getTracks");
            CallTracksGet])%list).
Proof.
  intros Hg Ha Hu Ht. run_handler. rewrite Hg, Ha, Hu, Ht. simpl.
  rewrite <- !app_assoc. reflexivity.
Qed.

(** Lines 181-188: the query of [tracks] fails. *)
Lemma main_failed (cloud : Cloud) (tracksGet : outcome query_result)
      (event context : jsval) (t : list main_effect)
      (v : Verdict) (l : log) (u : User.t) (e : exn) :
  checkAuthorization cloud event [] = (Returns v, l) ->
  authorized v = true ->
  user v = Some u ->
  storeFailure tracksGet = Some e ->
  main cloud tracksGet event context t =
    (match errorMessage e with
     | Returns msg =>
         Returns (mkResponse 500 (js_or msg (VStr "服务器内部错误")) VNull)
     | Throws e' => Throws e'
     end,
     (t ++ map Auth l
        ++ [ConsoleLog ("授权用户 " ++ User.openid u ++ " 正在访问 getTracks");
            CallTracksGet;
            ConsoleErrorMain "获取轨迹列表失败:" e])%list).
Proof.
  intros Hg Ha Hu Ht. run_handler. rewrite Hg, Ha, Hu. simpl.
  destruct tracksGet as [[|d]|e0]; simpl in Ht; try discriminate;
    injection Ht as <-; simpl;
    try match goal with
        | |- context [errorMessage ?x] => destruct (errorMessage x)
        end;
    rewrite <- !app_assoc; reflexivity.
Qed.

Lemma errorMessage_raises (e : exn) :
  (exists e', errorMessage e = Throws e') <->
  e = Thrown VUndef \/ e = Thrown VNull.
Proof.
  split.
  - intros [e' H]. destruct e as [msg|v]; simpl in H; [discriminate|].
    destruct v; simpl in H; try discriminate; auto.
  - intros [-> | ->]; simpl; eauto.
Qed.

Lemma storeFailure_cases (r : outcome query_result) :
  (exists d, r = Returns (QResult d)) \/ (exists e, storeFailure r = Some e).
Proof. destruct r as [[|d]|e]; simpl; eauto. Qed.

(** X10: a caller the gate refuses gets the answer [403] with the gate's
    own error as its message (the fallback text of line 159 is never
    used) and no data; the handler adds nothing to the effects of the
    gate, so it neither logs nor queries the [tracks] collection. *)
Theorem main_refuses_unauthorized :
  forall (cloud : Cloud) (tracksGet : outcome query_result)
         (event context : jsval) (t : list main_effect)
         (v : Verdict) (l : log),
    checkAuthorization cloud event [] = (Returns v, l) ->
    authorized v = false ->
    exists msg : string,
      error v = Some msg /\
      main cloud tracksGet event context t =
        (Returns (mkResponse 403 (VStr msg) VNull), (t ++ map Auth l)%list) /\
      tracksCalls (map Auth l) = 0.
Proof.
  intros cloud tracksGet event context t v l Hg Ha.
  destruct (gate_verdict cloud event) as (v' & l' & Hg' & Hv).
  rewrite Hg in Hg'. injection Hg' as <- <-. rewrite Ha in Hv.
  destruct Hv as (msg & He & Hm). exists msg. split; [assumption|].
  split; [|apply tracksCalls_Auth].
  apply (main_refused cloud tracksGet event context t v l msg Hg Ha He Hm).
Qed.

Lemma main_refuses_unauthorized_witness :
  checkAuthorization httpCloud (headerEvent "Authorization" (VStr "Bearer tokC")) [] =
    (Returns (mkVerdict false (Some (User.mk "userC" "uidC" None))
                (Some "用户 userC 未授权访问此应用")),
     [CallGetWXContext; CallVerifyAccessToken "tokC"; CallQueryActive "userC"]) /\
  exists msg : string,
    Some "用户 userC 未授权访问此应用" = Some msg /\
    main httpCloud sampleTracks
         (headerEvent "Authorization" (VStr "Bearer tokC")) VUndef [] =
      (Returns (mkResponse 403 (VStr msg) VNull),
       ([] ++ map Auth [CallGetWXContext; CallVerifyAccessToken "tokC";
                        CallQueryActive "userC"])%list) /\
    tracksCalls (map Auth [CallGetWXContext; CallVerifyAccessToken "tokC";
                           CallQueryActive "userC"]) = 0.
Proof.
  split; [reflexivity|].
  apply (main_refuses_unauthorized httpCloud sampleTracks
           (headerEvent "Authorization" (VStr "Bearer tokC")) VUndef []
           (mkVerdict false (Some (User.mk "userC" "uidC" None))
              (Some "用户 userC 未授权访问此应用"))
           [CallGetWXContext; CallVerifyAccessToken "tokC"; CallQueryActive "userC"]);
    reflexivity.
Defined.

(** Every run of the handler is one of the three above. *)
Lemma main_cases (cloud : Cloud) (tracksGet : outcome query_result)
      (event context : jsval) (t : list main_effect) :
  exists (v : Verdict) (l : log),
    checkAuthorization cloud event [] = (Returns v, l) /\
    ((authorized v = false /\
      exists msg,
        error v = Some msg /\
        main cloud tracksGet event context t =
          (Returns (mkResponse 403 (VStr msg) VNull), (t ++ map Auth l)%list))
     \/
     (authorized v = true /\
      exists u,
        user v = Some u /\
        ((exists d,
            tracksGet = Returns (QResult d) /\
            main cloud tracksGet event context t =
              (Returns (mkResponse 0 (VStr "success")
                          match d with Some docs => VArr docs | None => VUndef end),
               (t ++ map Auth l
                  ++ [ConsoleLog ("授权用户 " ++ User.openid u ++ " 正在访问 getTracks");
                      CallTracksGet])%list))
         \/
         (exists e,
            storeFailure tracksGet = Some e /\
            main cloud tracksGet event context t =
              (match errorMessage e with
               | Returns msg =>
                   Returns (mkResponse 500 (js_or msg (VStr "服务器内部错误")) VNull)
               | Throws e' => Throws e'
               end,
               (t ++ map Auth l
                  ++ [ConsoleLog ("授权用户 " ++ User.openid u ++ " 正在访问 getTracks");
                      CallTracksGet;
                      ConsoleErrorMain "获取轨迹列表失败:" e])%list))))).
Proof.
  destruct (gate_verdict cloud event) as (v & l & Hg & Hv).
  exists v, l. split; [assumption|].
  destruct (authorized v) eqn:Ha.
  - right. split; [reflexivity|]. destruct Hv as (u & Hu & _).
    exists u. split; [assumption|].
    destruct (storeFailure_cases tracksGet) as [[d Hd] | [e He]].
    + left. exists d. split; [assumption|].
      apply (main_served cloud tracksGet event context t v l u d Hg Ha Hu Hd).
    + right. exists e. split; [assumption|].
      apply (main_failed cloud tracksGet event context t v l u e Hg Ha Hu He).
  - left. split; [reflexivity|]. destruct Hv as (msg & He & Hm).
    exists msg. split; [assumption|].
    apply (main_refused cloud tracksGet event context t v l msg Hg Ha He Hm).
Qed.

(** X11: what the handler answers.  It answers [403] without data when
    the gate refuses; [0], [success] and the [data] of the store's answer
    when the gate authorizes and the query of [tracks] answers; [500]
    without data when the gate authorizes and the query fails.  So data of
    the collection goes to callers the gate authorized only.  The handler
    raises in one situation only: the gate authorized and the query was
    rejected with [undefined] or [null]. *)
Theorem main_outcomes :
  forall (cloud : Cloud) (tracksGet : outcome query_result)
         (event context : jsval) (t : list main_effect),
  exists (v : Verdict) (l : log),
    checkAuthorization cloud event [] = (Returns v, l) /\
    match fst (main cloud tracksGet event context t) with
    | Returns r =>
        (code r = 403%Z /\ authorized v = false /\ data r = VNull)
        \/
        (code r = 0%Z /\ authorized v = true /\ message r = VStr "success" /\
         exists d, tracksGet = Returns (QResult d) /\
                   data r = match d with Some docs => VArr docs | None => VUndef end)
        \/
        (code r = 500%Z /\ authorized v = true /\ data r = VNull /\
         exists e, storeFailure tracksGet = Some e)
    | Throws _ =>
        authorized v = true /\
        (tracksGet = Throws (Thrown VUndef) \/ tracksGet = Throws (Thrown VNull))
    end.
Proof.
  intros cloud tracksGet event context t.
  destruct (main_cases cloud tracksGet event context t)
    as (v & l & Hg & [(Ha & msg & _ & Hrun) | (Ha & u & _ & [(d & Hd & Hrun) | (e & He & Hrun)])]);
    exists v, l; (split; [assumption|]); rewrite Hrun; simpl.
  - left. auto.
  - right. left. repeat split; try assumption. exists d. auto.
  - destruct (errorMessage e) as [m|e'] eqn:Hm.
    + right. right. repeat split; try assumption. exists e. assumption.
    + split; [assumption|].
      assert (Hr : e = Thrown VUndef \/ e = Thrown VNull)
        by (apply errorMessage_raises; eauto).
      destruct tracksGet as [[|d]|e0]; simpl in He; try discriminate;
        injection He as <-; destruct Hr as [Hr | Hr];
        try discriminate Hr; rewrite Hr; auto.
Qed.

(** X12: the handler raises exactly when the gate authorizes and the
    query of [tracks] is rejected with [undefined] or [null]: the handler
    of line 181 reads [error.message] off the rejection outside any [try].
    In every other case the handler completes with a response. *)
Theorem main_raises_iff :
  forall (cloud : Cloud) (tracksGet : outcome query_result)
         (event context : jsval) (t : list main_effect),
    (exists e, fst (main cloud tracksGet event context t) = Throws e) <->
    (exists v l, checkAuthorization cloud event [] = (Returns v, l) /\
                 authorized v = true) /\
    (tracksGet = Throws (Thrown VUndef) \/ tracksGet = Throws (Thrown VNull)).
Proof.
  intros cloud tracksGet event context t.
  destruct (main_cases cloud tracksGet event context t)
    as (v & l & Hg & [(Ha & msg & _ & Hrun) | (Ha & u & _ & [(d & Hd & Hrun) | (e & He & Hrun)])]);
    rewrite Hrun; simpl; split.
  - intros [e H]. discriminate H.
  - intros [(v' & l' & Hg' & Ha') _].
    rewrite Hg in Hg'. injection Hg' as <- _. congruence.
  - intros [e H]. discriminate H.
  - intros [_ [H | H]]; rewrite H in Hd; discriminate Hd.
  - intros [e' H]. split; [eauto|].
    assert (Hr : e = Thrown VUndef \/ e = Thrown VNull).
    { apply errorMessage_raises. destruct (errorMessage e); [discriminate H | eauto]. }
    destruct tracksGet as [[|d]|e0]; simpl in He; try discriminate;
      injection He as <-; destruct Hr as [Hr | Hr];
      try discriminate Hr; rewrite Hr; auto.
  - intros [_ Hr].
    assert (He' : e = Thrown VUndef \/ e = Thrown VNull)
      by (destruct Hr as [Hr | Hr]; rewrite Hr in He; simpl in He;
          injection He as <-; auto).
    destruct He' as [-> | ->]; simpl; eauto.
Qed.

(** X13: when the gate authorizes and the query of [tracks] fails with an
    error whose [message] can be read, the handler logs the error and
    answers [500] with that [message] when it is truthy, and with the
    fixed text of line 185 otherwise.  The text of the store's own error
    is thus what the caller is sent. *)
Theorem main_store_error_reaches_caller :
  forall (cloud : Cloud) (tracksGet : outcome query_result)
         (event context : jsval) (t : list main_effect)
         (v : Verdict) (l : log) (e : exn) (msg : jsval),
    checkAuthorization cloud event [] = (Returns v, l) ->
    authorized v = true ->
    storeFailure tracksGet = Some e ->
    errorMessage e = Returns msg ->
    exists t' : list main_effect,
      main cloud tracksGet event context t =
        (Returns (mkResponse 500
                    (if truthy msg then msg else VStr "服务器内部错误") VNull),
         t') /\
      In (ConsoleErrorMain "获取轨迹列表失败:" e) t'.
Proof.
  intros cloud tracksGet event context t v l e msg Hg Ha He Hm.
  destruct (gate_verdict cloud event) as (v' & l' & Hg' & Hv).
  rewrite Hg in Hg'. injection Hg' as <- <-. rewrite Ha in Hv.
  destruct Hv as (u & Hu & _).
  rewrite (main_failed cloud tracksGet event context t v l u e Hg Ha Hu He), Hm.
  eexists. split; [reflexivity|].
  rewrite !in_app_iff. right. right. simpl. auto.
Qed.

Lemma main_store_error_reaches_caller_witness :
  checkAuthorization (wxCloud "oXXXXX1") bareEvent [] =
    (Returns (mkVerdict true (Some (User.mk "oXXXXX1" "oXXXXX1" (Some "wxapp"))) None),
     [CallGetWXContext]) /\
  storeFailure failingTracks =
    Some (Thrown (VObj [("message", VStr "connect ETIMEDOUT 10.0.0.5:27017")])) /\
  exists t' : list main_effect,
    main (wxCloud "oXXXXX1") failingTracks bareEvent VUndef [] =
      (Returns (mkResponse 500
                  (if truthy (VStr "connect ETIMEDOUT 10.0.0.5:27017")
                   then VStr "connect ETIMEDOUT 10.0.0.5:27017"
                   else VStr "服务器内部错误") VNull),
       t') /\
    In (ConsoleErrorMain "获取轨迹列表失败:"
          (Thrown (VObj [("message", VStr "connect ETIMEDOUT 10.0.0.5:27017")]))) t'.
Proof.
  split; [reflexivity|]. split; [reflexivity|].
  apply (main_store_error_reaches_caller (wxCloud "oXXXXX1") failingTracks
           bareEvent VUndef []
           (mkVerdict true (Some (User.mk "oXXXXX1" "oXXXXX1" (Some "wxapp"))) None)
           [CallGetWXContext]
           (Thrown (VObj [("message", VStr "connect ETIMEDOUT 10.0.0.5:27017")]))
           (VStr "connect ETIMEDOUT 10.0.0.5:27017"));
    reflexivity.
Defined.

(** X14: the handler queries the [tracks] collection exactly once when
    the gate authorizes and not at all when it refuses; the effects of the
    gate come first on the log, and for an authorized caller the handler's
    own effects start with the [console.log] that names the caller's
    [openid]. *)
Theorem main_queries_tracks_iff_authorized :
  forall (cloud : Cloud) (tracksGet : outcome query_result)
         (event context : jsval) (t : list main_effect),
  exists (v : Verdict) (l : log) (lh : list main_effect),
    checkAuthorization cloud event [] = (Returns v, l) /\
    snd (main cloud tracksGet event context t) = (t ++ map Auth l ++ lh)%list /\
    tracksCalls (map Auth l ++ lh) = (if authorized v then 1 else 0) /\
    (if authorized v
     then exists u,
         user v = Some u /\
         hd_error lh =
           Some (ConsoleLog ("授权用户 " ++ User.openid u ++ " 正在访问 getTracks"))
     else lh = []).
Proof.
  intros cloud tracksGet event context t.
  destruct (main_cases cloud tracksGet event context t)
    as (v & l & Hg & [(Ha & msg & _ & Hrun) | (Ha & u & Hu & [(d & Hd & Hrun) | (e & He & Hrun)])]);
    exists v, l; eexists; (split; [assumption|]); rewrite Hrun, Ha; simpl snd.
  - split; [rewrite <- (app_nil_r (map Auth l)) at 1; reflexivity|].
    rewrite app_nil_r. split; [apply tracksCalls_Auth | reflexivity].
  - split; [reflexivity|]. rewrite tracksCalls_app, tracksCalls_Auth.
    split; [reflexivity|]. exists u. split; [assumption | reflexivity].
  - split; [reflexivity|]. rewrite tracksCalls_app, tracksCalls_Auth.
    split; [reflexivity|]. exists u. split; [assumption | reflexivity].
Qed.

(** ** The handler of the configuration guide *)

Lemma guideMain_run (cloud : Cloud) (event context : jsval) (t : log) :
  guideMain cloud event context t =
    (match getWXContext cloud with
     | Throws e => Throws e
     | Returns None =>
         Throws (TypeError "Cannot read properties of undefined (reading 'OPENID')")
     | Returns (Some ctx) =>
         Returns match truthyText (OPENID ctx) with
                 | Some id =>
                     if includes AUTHORIZED_USERS id then None
                     else Some (mkResponse 403 (VStr "未授权访问") VNull)
                 | None => Some (mkResponse 403 (VStr "未授权访问") VNull)
                 end
     end,
     (t ++ [CallGetWXContext])%list).
Proof.
  unfold guideMain. run_monad.
  destruct (getWXContext cloud) as [[ctx|]|e]; simpl; try reflexivity.
  destruct (truthyText (OPENID ctx)) as [id|]; [|reflexivity].
  unfold includes. simpl.
  match goal with |- context [if ?b then _ else _] => destruct b end;
    reflexivity.
Qed.

(** X15: the short handler of the guide is stricter than the gate.
    Whenever it lets a caller through, the gate authorizes the same caller
    with the platform context's [OPENID] as the identity, for every event
    and whatever the verifier and the store do, and both only read the
    context. *)
Theorem guideMain_pass_implies_authorized :
  forall (cloud : Cloud) (event context : jsval) (t : log),
    fst (guideMain cloud event context t) = Returns None ->
    exists (ctx : WXContext) (id : string),
      getWXContext cloud = Returns (Some ctx) /\
      OPENID ctx = Some id /\
      includes AUTHORIZED_USERS id = true /\
      checkAuthorization cloud event t =
        (Returns (mkVerdict true (Some (User.mk id id (APPID ctx))) None),
         (t ++ [CallGetWXContext])%list) /\
      snd (guideMain cloud event context t) = (t ++ [CallGetWXContext])%list.
Proof.
  intros cloud event context t. rewrite guideMain_run. cbn [fst snd].
  destruct (getWXContext cloud) as [[ctx|]|e] eqn:Hw; try discriminate.
  destruct (truthyText (OPENID ctx)) as [id|] eqn:Ho; [|discriminate].
  destruct (includes AUTHORIZED_USERS id) eqn:Hs; [|discriminate].
  intros _. destruct (truthyText_Some _ _ Ho) as [Ho' Hne].
  exists ctx, id. repeat split; try assumption.
  pose proof (resolve_trusted cloud event t ctx id Hw Ho) as Hr.
  pose proof (check_static cloud id (t ++ [CallGetWXContext])%list Hs) as Hc.
  apply (gate_resolved cloud event t _ _ (User.mk id id (APPID ctx)) (VBool true) Hr Hne Hc).
Qed.

Lemma guideMain_pass_implies_authorized_witness :
  fst (guideMain (wxCloud "oXXXXX1") bareEvent VUndef []) = Returns None /\
  exists (ctx : WXContext) (id : string),
    getWXContext (wxCloud "oXXXXX1") = Returns (Some ctx) /\
    OPENID ctx = Some id /\
    includes AUTHORIZED_USERS id = true /\
    checkAuthorization (wxCloud "oXXXXX1") bareEvent [] =
      (Returns (mkVerdict true (Some (User.mk id id (APPID ctx))) None),
       ([] ++ [CallGetWXContext])%list) /\
    snd (guideMain (wxCloud "oXXXXX1") bareEvent VUndef []) =
      ([] ++ [CallGetWXContext])%list.
Proof.
  split; [reflexivity|].
  apply (guideMain_pass_implies_authorized (wxCloud "oXXXXX1") bareEvent VUndef []).
  reflexivity.
Defined.

(** X16: where the short handler of the guide and the gate part.  The
    short handler raises when the accessor of the platform context throws
    and when the context is missing, where the gate completes with a
    verdict; and it refuses every caller who is not on the static list,
    also one the gate authorizes through a record in the store. *)
Theorem guideMain_differs_from_gate :
  forall (cloud : Cloud) (event context : jsval) (t : log),
    ((exists e, fst (guideMain cloud event context t) = Throws e) <->
     (exists e, getWXContext cloud = Throws e) \/ getWXContext cloud = Returns None) /\
    (exists v t', checkAuthorization cloud event t = (Returns v, t')) /\
    (forall ctx id,
        getWXContext cloud = Returns (Some ctx) ->
        truthyText (OPENID ctx) = Some id ->
        includes AUTHORIZED_USERS id = false ->
        storeHasRecord (queryActive cloud id) = true ->
        fst (guideMain cloud event context t) =
          Returns (Some (mkResponse 403 (VStr "未授权访问") VNull)) /\
        fst (checkAuthorization cloud event t) =
          Returns (mkVerdict true (Some (User.mk id id (APPID ctx))) None)).
Proof.
  intros cloud event context t. rewrite guideMain_run. cbn [fst snd].
  split; [|split].
  - destruct (getWXContext cloud) as [[ctx|]|e]; split.
    + intros [e H]. discriminate H.
    + intros [[e H] | H]; discriminate H.
    + eauto.
    + eauto.
    + eauto.
    + eauto.
  - destruct (gate_cases cloud event t) as (r & t1 & _ & _ & Hcase).
    destruct r as [u|].
    + destruct Hcase as (a & t2 & _ & Hrun). rewrite Hrun. eauto.
    + rewrite Hcase. eauto.
  - intros ctx id Hw Ho Hs Hst. rewrite Hw, Ho, Hs. split; [reflexivity|].
    destruct (truthyText_Some _ _ Ho) as [_ Hne].
    pose proof (resolve_trusted cloud event t ctx id Hw Ho) as Hr.
    destruct (check_decision cloud id (t ++ [CallGetWXContext])%list)
      as (a & t2 & Ha & Hdec).
    rewrite Hs, Hst in Hdec.
    destruct (String.eqb_spec id ""); [contradiction|]. simpl in Hdec.
    rewrite (gate_resolved cloud event t _ _ (User.mk id id (APPID ctx)) a Hr Hne Ha).
    rewrite Hdec. reflexivity.
Qed.

(** ** Runs of the handlers *)

(** A subject with a record in the store only: the gate authorizes and
    the handler serves, the short handler of the guide refuses. *)
Example run_store_only_subject :
  main (wxCloud "userB") sampleTracks bareEvent VUndef [] =
    (Returns (mkResponse 0 (VStr "success")
                (VArr [VObj [("name", VStr "t1")]; VObj [("name", VStr "t2")]])),
     [Auth CallGetWXContext; Auth (CallQueryActive "userB");
      ConsoleLog "授权用户 userB 正在访问 getTracks"; CallTracksGet]) /\
  guideMain (wxCloud "userB") bareEvent VUndef [] =
    (Returns (Some (mkResponse 403 (VStr "未授权访问") VNull)), [CallGetWXContext]).
Proof. split; reflexivity. Qed.

(** The query of [tracks] is rejected with nothing: the handler raises. *)
Example run_tracks_rejected_with_undefined :
  main (wxCloud "oXXXXX1") (Throws (Thrown VUndef)) bareEvent VUndef [] =
    (Throws (TypeError "Cannot read properties of undefined (reading 'message')"),
     [Auth CallGetWXContext; ConsoleLog "授权用户 oXXXXX1 正在访问 getTracks";
      CallTracksGet; ConsoleErrorMain "获取轨迹列表失败:" (Thrown VUndef)]).
Proof. reflexivity. Qed.

(** The query of [tracks] resolves to nothing: reading [.data] raises
    inside the [try], and the caller is sent the text of the [TypeError]. *)
Example run_tracks_resolves_undefined :
  fst (main (wxCloud "oXXXXX1") (Returns QUndefined) bareEvent VUndef []) =
    Returns (mkResponse 500
               (VStr "Cannot read properties of undefined (reading 'data')") VNull).
Proof. reflexivity. Qed.
